(** * Albedo intent dispatcher: a shallow embedding and its properties

    The development follows [src/intent/src/intent-dispatcher.js] (class
    [IntentDispatcher]: [requestIntentConfirmation], [sendRequest],
    [prepareRequestParams]) and the public entry point [request] of the
    Albedo API object.

    JavaScript values are embedded as a small tagged union.  Objects live
    in a heap and are passed by reference, so that in-place updates of a
    caller-owned object are visible.  Promises are embedded by their
    settlement: a call either resolves with a value, rejects with an
    error, or throws before a promise is produced. *)

From stdpp Require Import base option list strings gmap fin_maps pretty.
From Stdlib Require Import ZArith Ascii String.

Open Scope string_scope.
Open Scope list_scope.
Open Scope Z_scope.

(** ** JavaScript values *)

Module Js.

Definition loc := positive.

(** Scope of the embedding: numbers are the integers of magnitude below
    [1e21], which print as their decimal digits; objects are ordinary
    objects with data properties and the default [toString]; a function
    value is an extensible function object and carries its source text.
    [VObj l] is an object that accepts writes; [VFrozen l] is an object
    that rejects the write of a property (frozen, or not extensible, or
    with the property read-only) and reads like any other.  The tag
    travels with the reference, as nothing here freezes an object. *)
Inductive value : Type :=
| VUndefined
| VNull
| VBool (b : bool)
| VNum (n : Z)
| VStr (s : string)
| VObj (l : loc)
| VFun (l : loc) (src : string)
| VFrozen (l : loc).

(** The own properties of an object. *)
Abbreviation JsObject := (gmap string value).
Abbreviation Heap := (gmap loc (gmap string value)).

(** ToBoolean: what [if (v)], [!v], [a || b] and [a && b] test. *)
Definition truthy (v : value) : bool :=
  match v with
  | VUndefined | VNull => false
  | VBool b => b
  | VNum n => negb (n =? 0)
  | VStr s => negb (String.eqb s EmptyString)
  | VObj _ | VFun _ _ | VFrozen _ => true
  end.

(** The [typeof] operator. *)
Definition typeof (v : value) : string :=
  match v with
  | VUndefined => "undefined"
  | VNull | VObj _ | VFrozen _ => "object"
  | VBool _ => "boolean"
  | VNum _ => "number"
  | VStr _ => "string"
  | VFun _ _ => "function"
  end.

(** ToString, as applied by template literals, property keys and
    [RegExp.prototype.test]. *)
Definition ToString (v : value) : string :=
  match v with
  | VUndefined => "undefined"
  | VNull => "null"
  | VBool true => "true"
  | VBool false => "false"
  | VNum n => pretty n
  | VStr s => s
  | VObj _ | VFrozen _ => "[object Object]"
  | VFun _ src => src
  end.

(** Strict equality against a string literal: [v === 'lit']. *)
Definition strict_eq_str (v : value) (lit : string) : bool :=
  match v with
  | VStr s => String.eqb s lit
  | _ => false
  end.

(** Reading property [k] of the object stored at [l]; a property that
    is not there reads as [undefined]. *)
Definition own (h : Heap) (l : loc) (k : string) : value :=
  default VUndefined (default ∅ (h !! l) !! k).

(** The property read [v[k]] (also what the destructuring
    [const {k} = v] performs).  [None] is the TypeError raised for
    [undefined] and [null]; primitives have none of the properties read
    by the dispatcher. *)
Definition Get (h : Heap) (v : value) (k : string) : option value :=
  match v with
  | VUndefined | VNull => None
  | VBool _ | VNum _ | VStr _ => Some VUndefined
  | VObj l | VFun l _ | VFrozen l => Some (own h l k)
  end.

(** The assignment [o[k] = v] on the object stored at [l]. *)
Definition Put (h : Heap) (l : loc) (k : string) (v : value) : Heap :=
  <[l := <[k := v]> (default ∅ (h !! l))]> h.

(** Allocation of a new object with the given own properties. *)
Definition alloc (h : Heap) (o : JsObject) : loc * Heap :=
  let l := fresh (dom h) in (l, <[l := o]> h).

End Js.
Export Js.

(** ** The collaborators of the dispatcher *)

Module Registry.

(** An entry of [intentInterface[intent].params]: the dispatcher reads
    only the [required] flag of a declared parameter. *)
Record ParamProps := { required : bool }.

(** An intent descriptor.  [params] lists the declared parameters in the
    order in which [for (const key in intentDescriptor.params)] visits
    them. *)
Record IntentDescriptor := { params : list (string * ParamProps) }.

End Registry.
Export Registry.

(** Modelled from the spec: the result payload sent back by the
    confirmation surface (its type declaration is not among the sources):
    [{intent, granted?, pubkey?, session?, valid_until?, grants?}].  A
    field that is absent holds [VUndefined]. *)
Record IntentResult := {
  intent : value;
  granted : value;
  pubkey : value;
  session : value;
  valid_until : value;
  grants : list string
}.

(** Modelled from the spec: a stored implicit session (the session
    storage module is not among the sources).  The dispatcher reads only
    [key]. *)
Record ImplicitSession := {
  owner : string;
  key : string;
  expires : Z;
  allowed : list string
}.

(** The two operations of [implicitSessionStorage] that the dispatcher
    calls.  [getImplicitSession] answers [None] when it returns no
    session. *)
Class SessionStorage (Store : Type) := {
  getImplicitSession : Store → value → value → option ImplicitSession;
  addSession : Store → IntentResult → Store
}.

(** The three transports of [transport-builder]. *)
Inductive Transport : Type :=
| ExtensionTransport
| IframeTransport (frontendUrl : string)
| DialogTransport (frontendUrl : string).

(** What the dispatcher does to the outside world, in order. *)
Inductive Event : Type :=
| Created (t : Transport)
| Posted (t : Transport) (envelope : JsObject)
| SessionAdded (result : IntentResult).

(** The errors built by the dispatcher, and the failure of an exchange,
    which is handed on as the transport produced it. *)
Inductive Error : Type :=
| MissingIntent
| UnknownIntent (intent : value)
| InvalidParameters
| InvalidPubkey
| MissingRequiredParameter (key : string) (intent : value)
| TransportFailure (reason : string).

(** The double quote character, as a one-character string. *)
Definition dq : string := String (ascii_of_nat 34) EmptyString.

(** The text given to [new Error(...)]. *)
Definition message (e : Error) : string :=
  match e with
  | MissingIntent => "Parameter " +:+ dq +:+ "intent" +:+ dq +:+ " is required."
  | UnknownIntent i => "Unknown intent: " +:+ dq +:+ ToString i +:+ dq +:+ "."
  | InvalidParameters => "Intent parameters expected."
  | InvalidPubkey =>
      "Invalid " +:+ dq +:+ "pubkey" +:+ dq
        +:+ " parameter. Stellar account public key expected."
  | MissingRequiredParameter k i =>
      "Parameter " +:+ dq +:+ k +:+ dq +:+ " is required for intent "
        +:+ dq +:+ ToString i +:+ dq +:+ "."
  | TransportFailure r => r
  end.

Definition is_validation_error (e : Error) : bool :=
  match e with
  | TransportFailure _ => false
  | _ => true
  end.

(** How a call ends: the promise resolves, the promise rejects, or a
    TypeError is thrown before any promise exists. *)
Inductive Settled (A : Type) : Type :=
| Resolved (a : A)
| Rejected (e : Error)
| Thrown.
Arguments Resolved {A} a.
Arguments Rejected {A} e.
Arguments Thrown {A}.

(** ** The world the dispatcher runs in *)

(** [extension] is [window.albedo && window.albedo.extensionEnabled];
    [sessions] is the state behind [implicitSessionStorage]; [log] records
    the effects performed so far, oldest first. *)
Record World (Store : Type) := {
  extension : bool;
  heap : Heap;
  sessions : Store;
  log : list Event
}.
Arguments extension {Store} w.
Arguments heap {Store} w.
Arguments sessions {Store} w.
Arguments log {Store} w.

(** The world [w] after the effects [es], none of which writes the
    session store. *)
Definition logged {Store} (w : World Store) (es : list Event) : World Store :=
  {| extension := extension w; heap := heap w;
     sessions := sessions w; log := log w ++ es |}.

(** Computations that read and update the world. *)
Definition M (Store A : Type) : Type := World Store → A * World Store.

#[global] Instance M_ret {Store} : MRet (M Store) :=
  fun A (a : A) w => (a, w).

#[global] Instance M_fmap {Store} : FMap (M Store) :=
  fun A B (f : A → B) (m : M Store A) w =>
    let (a, w') := m w in (f a, w').

#[global] Instance M_bind {Store} : MBind (M Store) :=
  fun A B (f : A → M Store B) (m : M Store A) w =>
    let (a, w') := m w in f a w'.

Definition emit {Store} (e : Event) : M Store unit :=
  fun w => (tt, logged w [e]).

Definition extensionAvailable {Store} : M Store bool :=
  fun w => (extension w, w).

(** [createExtensionTransport()], [createIframeTransport(frontendUrl)] and
    [createDialogTransport(frontendUrl)]: building a transport is an
    effect of its own (a dialog transport opens a window). *)
Definition createExtensionTransport {Store} : M Store Transport :=
  emit (Created ExtensionTransport);; mret ExtensionTransport.

Definition createIframeTransport {Store} (frontendUrl : string) : M Store Transport :=
  emit (Created (IframeTransport frontendUrl));;
  mret (IframeTransport frontendUrl).

Definition createDialogTransport {Store} (frontendUrl : string) : M Store Transport :=
  emit (Created (DialogTransport frontendUrl));;
  mret (DialogTransport frontendUrl).

(** [implicitSessionStorage.getImplicitSession(intent, pubkey)]: a read. *)
Definition lookupSession {Store} `{SessionStorage Store} (i p : value)
  : M Store (option ImplicitSession) :=
  fun w => (getImplicitSession (sessions w) i p, w).

(** The world after [implicitSessionStorage.addSession(result)]. *)
Definition stored {Store} `{SessionStorage Store} (w : World Store) (result : IntentResult) : World Store :=
  {| extension := extension w; heap := heap w;
     sessions := addSession (sessions w) result;
     log := log w ++ [SessionAdded result] |}.

(** [implicitSessionStorage.addSession(result)]: the only write. *)
Definition storeSession {Store} `{SessionStorage Store} (r : IntentResult)
  : M Store unit :=
  fun w => (tt, stored w r).

(** Reading a property of the envelope under construction, which is an
    object owned by the dispatcher alone. *)
Definition field (o : JsObject) (k : string) : value :=
  default VUndefined (o !! k).

(** ** The dispatcher *)

(** [/^G[0-9A-Z]{55}$/.test(s)]: without the [m] flag, [$] matches at the
    very end of the input only. *)
Definition is_digit_or_upper (c : ascii) : bool :=
  let n := nat_of_ascii c in
  ((48 <=? n)%nat && (n <=? 57)%nat) || ((65 <=? n)%nat && (n <=? 90)%nat).

Definition test_pubkey (s : string) : bool :=
  match s with
  | String c rest =>
      Ascii.eqb c "G"%char
      && (String.length rest =? 55)%nat
      && forallb is_digit_or_upper (list_ascii_of_string rest)
  | EmptyString => false
  end.

(** [params[key]] once [params] is known not to be [undefined] or [null]. *)
Definition prop (h : Heap) (params : value) (key : string) : value :=
  default VUndefined (Get h params key).

(** The loop of [prepareRequestParams] over the declared parameters, with
    [requestParams] as accumulator. *)
Fixpoint collectParams (h : Heap) (params intent : value)
    (declared : list (string * ParamProps)) (requestParams : JsObject)
  : Settled JsObject :=
  match declared with
  | [] => Resolved requestParams
  | (key, props) :: rest =>
      let value := prop h params key in
      if truthy value then
        collectParams h params intent rest (<[key := value]> requestParams)
      else if required props then
        Rejected (MissingRequiredParameter key intent)
      else collectParams h params intent rest requestParams
  end.

(** A declared parameter is in order when it is supplied or optional. *)
Definition supplied_or_optional (h : Heap) (params : value)
    (d : string * ParamProps) : Prop :=
  required d.2 = true → truthy (prop h params d.1) = true.

(** [prepareRequestParams(intentDescriptor, params)].  [null] passes the
    [typeof] test, and destructuring it throws. *)
Definition prepareRequestParams (h : Heap) (intentDescriptor : IntentDescriptor)
    (params : value) : Settled JsObject :=
  if negb (String.eqb (typeof params) "object") then Rejected InvalidParameters
  else
    match Get h params "intent", Get h params "pubkey" with
    | Some intent, Some pubkey =>
        let requestParams : JsObject := {[ "intent" := intent ]} in
        if truthy pubkey && negb (test_pubkey (ToString pubkey)) then
          Rejected InvalidPubkey
        else
          collectParams h params intent (Registry.params intentDescriptor)
            requestParams
    | _, _ => Thrown
    end.

(** The names that an ordinary object inherits from [Object.prototype].
    Each reads as a function, or as the prototype itself for
    [__proto__]: a truthy value that has no [params]. *)
Definition objectPrototypeNames : list string :=
  [ "constructor"; "__proto__"; "hasOwnProperty"; "isPrototypeOf";
    "propertyIsEnumerable"; "toLocaleString"; "toString"; "valueOf";
    "__defineGetter__"; "__defineSetter__"; "__lookupGetter__";
    "__lookupSetter__" ].

(** The property read [intentInterface[intent]].  The registry module is
    not among the sources; it is taken to be an ordinary object, as an
    object literal is, with the descriptors [registry] as its own
    properties.  A name that it inherits reads as a value over whose
    absent [params] the loop of [prepareRequestParams] does not iterate;
    [None] is a read that gives [undefined]. *)
Definition readDescriptor (registry : gmap string IntentDescriptor)
    (name : string) : option IntentDescriptor :=
  match registry !! name with
  | Some d => Some d
  | None =>
      if bool_decide (name ∈ objectPrototypeNames)
      then Some {| Registry.params := [] |}
      else None
  end.

(** A call passes validation when its intent is present and the registry
    read gives a descriptor for it, [params] is an object, [pubkey] is
    falsy or well shaped, and every declared parameter is supplied or
    optional. *)
Definition acceptable (registry : gmap string IntentDescriptor) (h : Heap)
    (params i : value) (d : IntentDescriptor) : Prop :=
  Get h params "intent" = Some i
  ∧ truthy i = true
  ∧ readDescriptor registry (ToString i) = Some d
  ∧ typeof params = "object"
  ∧ (truthy (prop h params "pubkey") = false
     ∨ test_pubkey (ToString (prop h params "pubkey")) = true)
  ∧ Forall (supplied_or_optional h params) (Registry.params d).

Section Dispatcher.

Context {Store : Type} `{SessionStorage Store}.

(** The static table [intentInterface], which is not among the sources:
    its own properties, the descriptor of each registered intent. *)
Variable intentInterface : gmap string IntentDescriptor.

(** What [transport.postMessage(params)] settles to: the result of the
    exchange, or the reason of its failure. *)
Variable postMessage : Transport → JsObject → IntentResult + string.

(** Lines 33-50 of [sendRequest]: the choice of the transport, with the
    session token attached to [params] when a session is found. *)
Definition selectTransport (params : JsObject) (frontendUrl : string)
  : M Store (Transport * JsObject) :=
  ext ← extensionAvailable;
  transport ← (if ext : bool then Some <$> createExtensionTransport
               else mret None);
  '(transport, params) ←
    (if truthy (field params "pubkey") then
       session ← lookupSession (field params "intent") (field params "pubkey");
       match session with
       | Some session =>
           let params := <["session" := VStr (key session)]> params in
           transport ← match transport with
                       | Some t => mret (Some t)
                       | None => Some <$> createIframeTransport frontendUrl
                       end;
           mret (transport, params)
       | None => mret (transport, params)
       end
     else mret (transport, params));
  transport ← match transport with
              | Some t => mret t
              | None => createDialogTransport frontendUrl
              end;
  mret (transport, params).

(** Lines 52-59: the handler given to [then]. *)
Definition onResult (result : IntentResult) : M Store IntentResult :=
  (if strict_eq_str (intent result) "implicit_flow" && truthy (granted result)
   then storeSession result
   else mret tt);;
  mret result.

(** [sendRequest(params, frontendUrl)]. *)
Definition sendRequest (params : JsObject) (frontendUrl : string)
  : M Store (Settled IntentResult) :=
  '(transport, params) ← selectTransport params frontendUrl;
  emit (Posted transport params);;
  match postMessage transport params with
  | inl result => Resolved <$> onResult result
  | inr reason => mret (Rejected (TransportFailure reason))
  end.

(** [requestIntentConfirmation(params, frontendUrl)]. *)
Definition requestIntentConfirmation (params : value) (frontendUrl : string)
  : M Store (Settled IntentResult) :=
  fun w =>
    match Get (heap w) params "intent" with
    | None => (Thrown, w)
    | Some intent =>
        if negb (truthy intent) then (Rejected MissingIntent, w)
        else
          match readDescriptor intentInterface (ToString intent) with
          | None => (Rejected (UnknownIntent intent), w)
          | Some intentDescriptor =>
              match prepareRequestParams (heap w) intentDescriptor params with
              | Resolved requestParams => sendRequest requestParams frontendUrl w
              | Rejected e => (Rejected e, w)
              | Thrown => (Thrown, w)
              end
          end
    end.

(** The session that [sendRequest] finds for an envelope, if any. *)
Definition applicableSession (w : World Store) (envelope : JsObject)
  : option ImplicitSession :=
  if truthy (field envelope "pubkey")
  then getImplicitSession (sessions w) (field envelope "intent")
         (field envelope "pubkey")
  else None.

End Dispatcher.

(** ** The public entry point *)

Module AlbedoIntent.

Definition frontendUrl : string := "https://albedo.link".

(** The own properties of the wrapper object of a string: its characters
    under their indices, and [length]. *)
Definition stringProps (s : string) : JsObject :=
  <["length" := VNum (Z.of_nat (String.length s))]>
    (list_to_map
       (imap (fun (i : nat) (c : ascii) => (pretty i, VStr (String c EmptyString)))
             (list_ascii_of_string s))).

(** ToObject: objects and functions are themselves, a primitive is boxed
    into a new wrapper object, [undefined] and [null] raise a TypeError. *)
Definition ToObject (h : Heap) (v : value) : option (value * Heap) :=
  match v with
  | VUndefined | VNull => None
  | VObj _ | VFun _ _ | VFrozen _ => Some (v, h)
  | VBool _ | VNum _ => let (l, h') := alloc h ∅ in Some (VObj l, h')
  | VStr s => let (l, h') := alloc h (stringProps s) in Some (VObj l, h')
  end.

(** [Object.assign(target, {intent})]: the one own property of the source
    is written to the target, and the target is returned; a target that
    rejects the write raises a TypeError, like [undefined] and [null]. *)
Definition assignIntent (h : Heap) (target intent : value)
  : option (value * Heap) :=
  match ToObject h target with
  | Some (VObj l, h') => Some (VObj l, Put h' l "intent" intent)
  | Some (VFun l src, h') => Some (VFun l src, Put h' l "intent" intent)
  | _ => None
  end.

Definition withHeap {Store} (w : World Store) (h : Heap) : World Store :=
  {| extension := extension w; heap := h;
     sessions := sessions w; log := log w |}.

(** A call of the name [requestIntentConfirmation] that line 4 imports,
    for whatever the name is bound to: a function, or nothing that can
    be called ([None]), and then the call raises a TypeError once its
    arguments are evaluated.  The dispatcher module as given has a
    default export only. *)
Definition invoke {Store}
    (imported : option (value → string → M Store (Settled IntentResult)))
    (params : value) (url : string) : M Store (Settled IntentResult) :=
  match imported with
  | Some f => f params url
  | None => fun w => (Thrown, w)
  end.

(** [request(intent, params)]: [params || {}] is the target of
    [Object.assign], and what it returns is the argument of the call of
    the imported [requestIntentConfirmation]. *)
Definition requestWith {Store}
    (imported : option (value → string → M Store (Settled IntentResult)))
    (intent params : value) : M Store (Settled IntentResult) :=
  fun w =>
    let (target, h) :=
      if truthy params then (params, heap w)
      else let (l, h') := alloc (heap w) ∅ in (VObj l, h') in
    match assignIntent h target intent with
    | Some (assigned, h') =>
        invoke imported assigned frontendUrl (withHeap w h')
    | None => (Thrown, w)
    end.

Section Request.

Context {Store : Type} `{SessionStorage Store}.
Variable intentInterface : gmap string IntentDescriptor.
Variable postMessage : Transport → JsObject → IntentResult + string.

(** [request] with the imported name bound to the method of the
    dispatcher. *)
Definition request (intent params : value) : M Store (Settled IntentResult) :=
  requestWith (Some (requestIntentConfirmation intentInterface postMessage))
    intent params.

End Request.

(** The own enumerable properties of a source of [Object.assign]: all
    the properties of an object or a function, the characters of a
    string under their indices ([length] is not enumerable), and none
    for the other primitives. *)
Definition enumerableProps (h : Heap) (source : value) : JsObject :=
  match source with
  | VObj l | VFun l _ | VFrozen l => default ∅ (h !! l)
  | VStr s =>
      list_to_map
        (imap (fun (i : nat) (c : ascii) => (pretty i, VStr (String c EmptyString)))
              (list_ascii_of_string s))
  | _ => ∅
  end.

Section Api.

Context {Store : Type} `{SessionStorage Store}.
Variable intentInterface : gmap string IntentDescriptor.
Variable postMessage : Transport → JsObject → IntentResult + string.

(** What [generateRandomToken()] returns when [publicKey] calls it (the
    generator is not among the sources). *)
Variable generatedToken : value.

(** The built-in [JSON.stringify], which answers a string, or
    [undefined] for what has no JSON text; [None] is the TypeError that
    it raises, as for a structure with a cycle. *)
Variable JSON_stringify : Heap → value → option value.

(** The entry points that only name the intent: [implicitFlow], [tx],
    [pay], [trust], [exchange] and [manageAccount]. *)
Definition implicitFlow (params : value) : M Store (Settled IntentResult) :=
  request intentInterface postMessage (VStr "implicit_flow") params.

Definition tx (params : value) : M Store (Settled IntentResult) :=
  request intentInterface postMessage (VStr "tx") params.

Definition pay (params : value) : M Store (Settled IntentResult) :=
  request intentInterface postMessage (VStr "pay") params.

Definition trust (params : value) : M Store (Settled IntentResult) :=
  request intentInterface postMessage (VStr "trust") params.

Definition exchange (params : value) : M Store (Settled IntentResult) :=
  request intentInterface postMessage (VStr "exchange") params.

Definition manageAccount (params : value) : M Store (Settled IntentResult) :=
  request intentInterface postMessage (VStr "manage_account") params.

(** [publicKey(params)]: [Object.assign({}, params)] makes a new object,
    which gets a generated [token] when it has no truthy one. *)
Definition publicKey (params : value) : M Store (Settled IntentResult) :=
  fun w =>
    let (l, h) := alloc (heap w) (enumerableProps (heap w) params) in
    let h' := if negb (truthy (own h l "token"))
              then Put h l "token" generatedToken else h in
    request intentInterface postMessage (VStr "public_key") (VObj l)
      (withHeap w h').

(** [normalizeMessageToSign(message)]; [None] when [JSON.stringify]
    throws. *)
Definition normalizeMessageToSign (h : Heap) (message : value)
  : option value :=
  if String.eqb (typeof message) "string" then Some message
  else if String.eqb (typeof message) "undefined" then Some (VStr EmptyString)
  else JSON_stringify h message.

(** [signMessage(params)]: reading [params.message] throws for
    [undefined] and [null], and normalizing it may throw; otherwise
    [Object.assign({}, params, {message: ...})] makes a new object. *)
Definition signMessage (params : value) : M Store (Settled IntentResult) :=
  fun w =>
    match Get (heap w) params "message" with
    | None => (Thrown, w)
    | Some message =>
        match normalizeMessageToSign (heap w) message with
        | None => (Thrown, w)
        | Some normalized =>
            let (l, h) :=
              alloc (heap w)
                (<["message" := normalized]>
                   (enumerableProps (heap w) params)) in
            request intentInterface postMessage (VStr "sign_message") (VObj l)
              (withHeap w h)
        end
    end.

(** [isImplicitSessionAllowed(intent, pubkey)]:
    [!!getImplicitSession(intent, pubkey)]. *)
Definition isImplicitSessionAllowed (i p : value) : M Store bool :=
  fun w => (bool_decide (is_Some (getImplicitSession (sessions w) i p)), w).

End Api.

End AlbedoIntent.

(** ** A session store and a registry to run the dispatcher on *)

Module MemoryStore.

(** Modelled from the spec: the Session Store (the module
    [implicit-session-storage] is not among the sources).  One session per
    pubkey; [get] returns a session only if it is present, not expired at
    the time [now] of the read, and the intent is one of its grants; [add]
    overwrites the session of the pubkey of the response. *)
Record t := { now : Z; entries : gmap string ImplicitSession }.

Definition get (s : t) (i p : value) : option ImplicitSession :=
  match p with
  | VStr pk =>
      match entries s !! pk with
      | Some session =>
          if (now s <? expires session)
             && bool_decide (ToString i ∈ allowed session)
          then Some session else None
      | None => None
      end
  | _ => None
  end.

Definition add (s : t) (r : IntentResult) : t :=
  match pubkey r, session r, valid_until r with
  | VStr pk, VStr token, VNum until =>
      {| now := now s;
         entries := <[pk := {| owner := pk; key := token; expires := until;
                               allowed := grants r |}]> (entries s) |}
  | _, _, _ => s
  end.

#[global] Instance storage : SessionStorage t :=
  {| getImplicitSession := get; addSession := add |}.

End MemoryStore.

Module Sample.

Definition optional : ParamProps := {| required := false |}.
Definition mandatory : ParamProps := {| required := true |}.

(** A registry with the parameters that the documentation of the API
    object gives for [tx], [pay], [sign_message] and [implicit_flow]. *)
Definition registry : gmap string IntentDescriptor :=
  list_to_map
    [ ("tx", {| params := [("xdr", mandatory); ("pubkey", optional);
                            ("network", optional); ("submit", optional)] |});
      ("pay", {| params := [("destination", mandatory); ("amount", mandatory);
                             ("asset_code", optional); ("memo", optional);
                             ("pubkey", optional); ("network", optional);
                             ("submit", optional)] |});
      ("sign_message", {| params := [("message", mandatory);
                                      ("pubkey", optional)] |});
      ("implicit_flow", {| params := [("intents", mandatory)] |}) ].

(** A well-shaped account key: [G] and 55 times [A]. *)
Definition account : string :=
  "GAAAAAAAAAAAAAAAAAAAAAAAAAAAAAAAAAAAAAAAAAAAAAAAAAAAAAAA".

Definition standing : ImplicitSession :=
  {| owner := account; key := "token-1"; expires := 2000;
     allowed := ["tx"; "pay"] |}.

Definition noSessions : MemoryStore.t :=
  {| MemoryStore.now := 1000; MemoryStore.entries := ∅ |}.

Definition oneSession : MemoryStore.t :=
  {| MemoryStore.now := 1000;
     MemoryStore.entries := {[ account := standing ]} |}.

(** A world with the caller's object [obj] at location 1. *)
Definition world (ext : bool) (obj : JsObject) (s : MemoryStore.t)
  : World MemoryStore.t :=
  {| extension := ext; heap := {[ 1%positive := obj ]};
     sessions := s; log := [] |}.

(** A confirmation surface that signs whatever it is asked, and grants
    an implicit session when asked for one. *)
Definition signed : IntentResult :=
  {| intent := VStr "tx"; granted := VUndefined; pubkey := VStr account;
     session := VUndefined; valid_until := VUndefined; grants := [] |}.

Definition grant : IntentResult :=
  {| intent := VStr "implicit_flow"; granted := VBool true;
     pubkey := VStr account; session := VStr "token-2";
     valid_until := VNum 5000; grants := ["tx"] |}.

Definition surface (t : Transport) (envelope : JsObject)
  : IntentResult + string :=
  if strict_eq_str (field envelope "intent") "implicit_flow" then inl grant
  else if strict_eq_str (field envelope "intent") "tx" then inl signed
  else inr "rejected".

End Sample.

Module Runs.

Import Sample.

Definition url : string := AlbedoIntent.frontendUrl.
Definition caller : value := VObj 1%positive.

(** [{intent: 'tx', xdr: 'AAAA', pubkey: account, junk: 3}] *)
Definition txCall : JsObject :=
  {[ "intent" := VStr "tx"; "xdr" := VStr "AAAA";
     "pubkey" := VStr account; "junk" := VNum 3 ]}.

(** What is prepared from [txCall]. *)
Definition txEnvelope : JsObject :=
  {[ "intent" := VStr "tx"; "xdr" := VStr "AAAA"; "pubkey" := VStr account ]}.

(** [{intent: 'implicit_flow', intents: 'tx'}] and its envelope. *)
Definition flowCall : JsObject :=
  {[ "intent" := VStr "implicit_flow"; "intents" := VStr "tx" ]}.

(** [{xdr: 'AAAA'}]: no intent. *)
Definition noIntentCall : JsObject := {[ "xdr" := VStr "AAAA" ]}.

(** [{intent: '', xdr: 'AAAA'}]: the empty intent name. *)
Definition emptyIntentCall : JsObject :=
  {[ "intent" := VStr EmptyString; "xdr" := VStr "AAAA" ]}.

(** [{intent: 'swap'}]: an intent that the registry does not have. *)
Definition swapCall : JsObject := {[ "intent" := VStr "swap" ]}.

(** [{intent: 'tx', xdr: 'AAAA', pubkey: 'GABC'}]: an ill-shaped pubkey. *)
Definition badKeyCall : JsObject :=
  {[ "intent" := VStr "tx"; "xdr" := VStr "AAAA"; "pubkey" := VStr "GABC" ]}.


(** [{intent: 'pay'}]: both required parameters of [pay] are missing. *)
Definition payCall : JsObject := {[ "intent" := VStr "pay" ]}.

(** [{intent: 'pay', destination: account}]: only [amount] is missing. *)
Definition payNoAmountCall : JsObject :=
  {[ "intent" := VStr "pay"; "destination" := VStr account ]}.

(** [{intent: 'tx', pubkey: 'GABC'}]: [xdr] is missing and the pubkey is
    ill shaped. *)
Definition badKeyNoXdrCall : JsObject :=
  {[ "intent" := VStr "tx"; "pubkey" := VStr "GABC" ]}.

(** A function object, [function () {}], carrying [intent: 'tx']. *)
Definition callback : value := VFun 1%positive "function () {}".

End Runs.

Module ApiRuns.

Import Sample.

(** The sample registry with ['public_key'], whose [token] is required. *)
Definition registry : gmap string IntentDescriptor :=
  <["public_key" := {| params := [("token", mandatory)] |}]> Sample.registry.

Definition generated : value := VStr "generated-token".

(** [JSON.stringify] on [null], booleans and integral numbers; the runs
    below call it on nothing else. *)
Definition jsonOfPrimitive (h : Heap) (v : value) : option value :=
  match v with
  | VNull | VBool _ | VNum _ => Some (VStr (ToString v))
  | _ => Some VUndefined
  end.

(** [{intent: 'pay', destination: account, amount: '10'}]: a call that
    the sample surface rejects. *)
Definition payFullCall : JsObject :=
  {[ "intent" := VStr "pay"; "destination" := VStr account;
     "amount" := VStr "10" ]}.

Definition payEnvelope : JsObject := payFullCall.

(** [{intent: 'tx', message: 'hello', junk: 3}]: for [signMessage]. *)
Definition signCall : JsObject :=
  {[ "intent" := VStr "tx"; "message" := VStr "hello"; "junk" := VNum 3 ]}.

Definition signEnvelope : JsObject :=
  {[ "intent" := VStr "sign_message"; "message" := VStr "hello" ]}.

(** [{pubkey: account}]: no message. *)
Definition noMessageCall : JsObject := {[ "pubkey" := VStr account ]}.

(** [{intent: 'constructor'}]: a name that the registry inherits. *)
Definition constructorCall : JsObject := {[ "intent" := VStr "constructor" ]}.

(** [{callback: 'https://example.org'}]: no token. *)
Definition tokenlessCall : JsObject :=
  {[ "callback" := VStr "https://example.org" ]}.

Definition tokenEnvelope : JsObject :=
  {[ "intent" := VStr "public_key"; "token" := generated ]}.

(** A store whose session for [account] grants ['implicit_flow']. *)
Definition flowSession : MemoryStore.t :=
  {| MemoryStore.now := 1000;
     MemoryStore.entries :=
       {[ account := {| owner := account; key := "token-3"; expires := 2000;
                        allowed := ["implicit_flow"] |} ]} |}.


(** A second object of the caller, at location 2. *)
Definition twoObjects (obj other : JsObject) : World MemoryStore.t :=
  {| extension := false;
     heap := {[ 1%positive := obj; 2%positive := other ]};
     sessions := noSessions; log := [] |}.

End ApiRuns.

(** * Properties *)

(** ** Small facts about values and the envelope *)

Lemma Get_total h v k x k' :
  Get h v k = Some x → Get h v k' = Some (prop h v k').
Proof. unfold prop. destruct v; simpl; intros; try discriminate; done. Qed.

Lemma prop_Get h v k x : Get h v k = Some x → prop h v k = x.
Proof. unfold prop. by intros ->. Qed.

Lemma readDescriptor_own (registry : gmap string IntentDescriptor) name d :
  registry !! name = Some d → readDescriptor registry name = Some d.
Proof. unfold readDescriptor. by intros ->. Qed.

Lemma typeof_not_object_eqb v :
  typeof v ≠ "object" → String.eqb (typeof v) "object" = false.
Proof. intros Hne. by apply String.eqb_neq. Qed.

Lemma strict_eq_str_spec v lit : strict_eq_str v lit = true ↔ v = VStr lit.
Proof.
  destruct v; simpl; try (split; [discriminate | intros [=]]).
  rewrite String.eqb_eq. split; [by intros -> | by intros [= ->]].
Qed.

(** [test_pubkey] accepts exactly the strings of 56 characters that
    start with [G] and go on with digits and capital letters. *)
Lemma test_pubkey_spec s :
  test_pubkey s = true ↔
  ∃ rest, s = String "G" rest ∧ String.length rest = 55%nat
          ∧ Forall (fun c => is_digit_or_upper c = true)
                   (list_ascii_of_string rest).
Proof.
  destruct s as [|c rest]; simpl.
  - split; [discriminate | intros (? & [=] & _)].
  - rewrite !andb_true_iff, Ascii.eqb_eq, Nat.eqb_eq, forallb_forall.
    split.
    + intros [[-> Hlen] Hall]. exists rest. split_and!; try done.
      apply Forall_forall. intros x Hx. by apply Hall, list_elem_of_In.
    + intros (r & [= -> ->] & Hlen & Hall). split_and!; try done.
      intros x Hx. rewrite Forall_forall in Hall. by apply Hall, list_elem_of_In.
Qed.

(** ** The loop over the declared parameters *)

Lemma collectParams_lookup h params intent declared acc env :
  collectParams h params intent declared acc = Resolved env →
  ∀ k, env !! k =
       if decide (k ∈ declared.*1 ∧ truthy (prop h params k) = true)
       then Some (prop h params k) else acc !! k.
Proof.
  revert acc. induction declared as [|[key props] rest IH]; intros acc Hrun k.
  - simpl in Hrun. injection Hrun as <-.
    rewrite decide_False; [done|]. intros [Hk _]. by apply elem_of_nil in Hk.
  - simpl in Hrun. rewrite fmap_cons. simpl.
    destruct (truthy (prop h params key)) eqn:Hkey.
    + rewrite (IH _ Hrun k). destruct (decide (k = key)) as [->|Hne].
      * rewrite (decide_True (P := _ ∈ key :: _ ∧ _)) by (split; [left|done]).
        case_decide; [done|]. by rewrite lookup_insert_eq.
      * rewrite lookup_insert_ne by done. apply decide_ext.
        rewrite elem_of_cons. intuition congruence.
    + destruct (required props); [discriminate|].
      rewrite (IH _ Hrun k). apply decide_ext.
      rewrite elem_of_cons. split; [intuition|].
      intros [[->|Hin] Hk]; [congruence|done].
Qed.

Lemma collectParams_resolves h params intent declared acc :
  Forall (supplied_or_optional h params) declared →
  ∃ env, collectParams h params intent declared acc = Resolved env.
Proof.
  intros Hall. revert acc.
  induction Hall as [|[key props] rest Hhead _ IH]; intros acc; simpl; [eauto|].
  destruct (truthy (prop h params key)) eqn:Hkey; [apply IH|].
  destruct (required props) eqn:Hreq; [|apply IH].
  specialize (Hhead Hreq). simpl in Hhead. congruence.
Qed.

Lemma collectParams_first_missing h params intent before key props after acc :
  Forall (supplied_or_optional h params) before →
  required props = true →
  truthy (prop h params key) = false →
  collectParams h params intent (before ++ (key, props) :: after) acc
  = Rejected (MissingRequiredParameter key intent).
Proof.
  intros Hall Hreq Hkey. revert acc.
  induction Hall as [|[k p] rest Hhead _ IH]; intros acc; simpl.
  - by rewrite Hkey, Hreq.
  - destruct (truthy (prop h params k)) eqn:Hk; [apply IH|].
    destruct (required p) eqn:Hp; [|apply IH].
    specialize (Hhead Hp). simpl in Hhead. congruence.
Qed.

(** Every list of declared parameters either is in order or splits at
    its first required parameter that is not supplied. *)
Lemma first_missing_split h params (declared : list (string * ParamProps)) :
  Forall (supplied_or_optional h params) declared
  ∨ ∃ before key props after,
      declared = before ++ (key, props) :: after
      ∧ Forall (supplied_or_optional h params) before
      ∧ required props = true
      ∧ truthy (prop h params key) = false.
Proof.
  induction declared as [|[k p] rest IH]; [by left|].
  destruct (required p) eqn:Hp, (truthy (prop h params k)) eqn:Hk.
  4: { destruct IH as [Hall|(b & key & props & a & -> & Hb & Hr & Hf)].
       - left. constructor; [|done]. intros Hreq. simpl in *. congruence.
       - right. exists ((k, p) :: b), key, props, a. split_and!; try done.
         constructor; [|done]. intros Hreq. simpl in *. congruence. }
  2: { right. by exists [], k, p, rest. }
  all: destruct IH as [Hall|(b & key & props & a & -> & Hb & Hr & Hf)];
    [ left; constructor; [|done]; by intros _
    | right; exists ((k, p) :: b), key, props, a; split_and!; try done;
      constructor; [|done]; by intros _ ].
Qed.

(** The first such parameter is determined by the list. *)
Lemma first_missing_unique h params
    (b1 b2 : list (string * ParamProps)) k1 p1 k2 p2 a1 a2 :
  b1 ++ (k1, p1) :: a1 = b2 ++ (k2, p2) :: a2 →
  Forall (supplied_or_optional h params) b1 → required p1 = true →
  truthy (prop h params k1) = false →
  Forall (supplied_or_optional h params) b2 → required p2 = true →
  truthy (prop h params k2) = false →
  k1 = k2.
Proof.
  revert b2. induction b1 as [|[k p] b1 IH]; intros [|[k' p'] b2] Heq H1 R1 F1 H2 R2 F2;
    simpl in Heq.
  - by injection Heq as -> _ _.
  - injection Heq as <- <- _. apply Forall_cons in H2 as [Hbad _].
    specialize (Hbad R1). simpl in Hbad. congruence.
  - injection Heq as -> -> _. apply Forall_cons in H1 as [Hbad _].
    specialize (Hbad R2). simpl in Hbad. congruence.
  - injection Heq as _ _ Heq. apply Forall_cons in H1 as [_ H1].
    apply Forall_cons in H2 as [_ H2]. eauto.
Qed.

(** ** Running the dispatcher *)

Lemma logged_app {Store} (w : World Store) es es' :
  logged (logged w es) es' = logged w (es ++ es').
Proof. unfold logged; simpl. by rewrite app_assoc. Qed.

Ltac run_M :=
  unfold mbind, M_bind, mret, M_ret, fmap, M_fmap, emit, extensionAvailable,
    createExtensionTransport, createIframeTransport, createDialogTransport,
    lookupSession, storeSession in *; simpl in *.

Section DispatcherProperties.

Context {Store : Type} `{SessionStorage Store}.
Variable intentInterface : gmap string IntentDescriptor.
Variable postMessage : Transport → JsObject → IntentResult + string.

Local Abbreviation dispatch := (requestIntentConfirmation intentInterface postMessage).
Local Abbreviation send := (sendRequest postMessage).

(** The choice made by lines 33-50, as a function of the extension flag
    and of the session found. *)
Lemma selectTransport_run (envelope : JsObject) url (w : World Store) :
  selectTransport envelope url w =
  let found := applicableSession w envelope in
  let t := if extension w then ExtensionTransport
           else match found with
                | Some _ => IframeTransport url
                | None => DialogTransport url
                end in
  let sent := match found with
              | Some s => <["session" := VStr (key s)]> envelope
              | None => envelope
              end in
  ((t, sent), logged w [Created t]).
Proof.
  unfold selectTransport, applicableSession. run_M.
  destruct (extension w) eqn:Hext; simpl;
    destruct (truthy (field envelope "pubkey")); simpl;
    try destruct (getImplicitSession _ _ _); simpl;
    unfold logged; simpl; rewrite ?Hext; try done.
Qed.

Lemma onResult_run (result : IntentResult) (w : World Store) :
  onResult result w =
  (result,
   if strict_eq_str (intent result) "implicit_flow" && truthy (granted result)
   then stored w result else w).
Proof.
  unfold onResult. run_M.
  by destruct (strict_eq_str _ _ && truthy _).
Qed.

(** [sendRequest] creates one transport, posts once, and settles as the
    exchange does. *)
Lemma sendRequest_run (envelope : JsObject) url (w : World Store) t sent :
  (selectTransport envelope url w).1 = (t, sent) →
  send envelope url w =
  match postMessage t sent with
  | inl result =>
      (Resolved result,
       if strict_eq_str (intent result) "implicit_flow"
          && truthy (granted result)
       then stored (logged w [Created t; Posted t sent]) result
       else logged w [Created t; Posted t sent])
  | inr reason =>
      (Rejected (TransportFailure reason), logged w [Created t; Posted t sent])
  end.
Proof.
  rewrite selectTransport_run. simpl. intros [= Ht Hsent].
  unfold sendRequest. run_M. rewrite selectTransport_run. simpl.
  rewrite Ht, Hsent.
  rewrite logged_app. simpl.
  destruct (postMessage t sent); [|done].
  by rewrite onResult_run.
Qed.

Lemma sendRequest_not_validation_error (envelope : JsObject) url
    (w w' : World Store) e :
  send envelope url w = (Rejected e, w') → is_validation_error e = false.
Proof.
  destruct (selectTransport envelope url w) as [[t sent] w1] eqn:Hsel.
  rewrite (sendRequest_run envelope url w t sent) by (by rewrite Hsel).
  destruct (postMessage t sent); [discriminate|]. by intros [= <- _].
Qed.

(** ** Transport selection *)

(** C1.  For every envelope handed to [sendRequest], exactly one
    transport is created and the envelope is posted on it.  With an
    extension channel in the environment it is the extension transport,
    whatever the session store holds.  Without one, it is the iframe
    transport when the envelope carries a pubkey and the session store
    returns a session for the intent and that pubkey, and the dialog
    transport otherwise.  Whenever such a session is returned, its token
    is attached to the posted envelope as [session], also when the
    extension transport was chosen; otherwise the envelope is posted as
    it is. *)
Theorem transport_selection_first_match (envelope : JsObject) url
    (w : World Store) :
  ∃ t sent rest,
    log (send envelope url w).2 = log w ++ Created t :: Posted t sent :: rest
    ∧ (∀ e, e ∈ rest → ∃ r, e = SessionAdded r)
    ∧ (extension w = true → t = ExtensionTransport)
    ∧ (∀ s,
         truthy (field envelope "pubkey") = true →
         getImplicitSession (sessions w) (field envelope "intent")
           (field envelope "pubkey") = Some s →
         sent = <["session" := VStr (key s)]> envelope
         ∧ (extension w = false → t = IframeTransport url))
    ∧ (truthy (field envelope "pubkey") = false
       ∨ getImplicitSession (sessions w) (field envelope "intent")
           (field envelope "pubkey") = None →
       sent = envelope
       ∧ (extension w = false → t = DialogTransport url)).
Proof.
  pose proof (selectTransport_run envelope url w) as Hsel. simpl in Hsel.
  set (found := applicableSession w envelope) in Hsel.
  set (t := if extension w then ExtensionTransport
            else match found with
                 | Some _ => IframeTransport url
                 | None => DialogTransport url
                 end) in Hsel.
  set (sent := match found with
               | Some s => <["session" := VStr (key s)]> envelope
               | None => envelope
               end) in Hsel.
  rewrite (sendRequest_run envelope url w t sent) by (by rewrite Hsel).
  exists t, sent.
  exists (match postMessage t sent with
          | inl result =>
              if strict_eq_str (intent result) "implicit_flow"
                 && truthy (granted result)
              then [SessionAdded result] else []
          | inr _ => []
          end).
  split_and!.
  - destruct (postMessage t sent) as [result|reason]; simpl; [|done].
    destruct (strict_eq_str _ _ && truthy _); simpl; [|done].
    by rewrite <- app_assoc.
  - intros e. destruct (postMessage t sent) as [result|reason];
      [destruct (strict_eq_str _ _ && truthy _)|]; intros He.
    + apply list_elem_of_singleton in He. eauto.
    + by apply elem_of_nil in He.
    + by apply elem_of_nil in He.
  - intros Hext. subst t. by rewrite Hext.
  - intros s Hpk Hget. subst t sent found. unfold applicableSession.
    rewrite Hpk, Hget. split; [done|]. by intros ->.
  - intros Hnone. subst t sent found. unfold applicableSession.
    destruct Hnone as [Hpk|Hget].
    + rewrite Hpk. split; [done|]. by intros ->.
    + destruct (truthy _); rewrite ?Hget; (split; [done|]); by intros ->.
Qed.

(** ** Storing a granted session *)

(** C2.  When the exchange resolves with a result whose [intent] is
    ['implicit_flow'] and whose [granted] flag is truthy (for a boolean
    flag: is [true]), [addSession] is called with that result, after the
    post and as the last effect, and the same result is what the caller
    gets.  For every other resolved
    result, the caller gets the result as it is and the session store is
    not written. *)
Theorem granted_session_is_stored (envelope : JsObject) url (w : World Store)
    t sent result :
  (selectTransport envelope url w).1 = (t, sent) →
  postMessage t sent = inl result →
  (intent result = VStr "implicit_flow" ∧ truthy (granted result) = true →
   send envelope url w =
   (Resolved result,
    {| extension := extension w; heap := heap w;
       sessions := addSession (sessions w) result;
       log := log w ++ [Created t; Posted t sent; SessionAdded result] |}))
  ∧ (¬ (intent result = VStr "implicit_flow"
        ∧ truthy (granted result) = true) →
     send envelope url w =
     (Resolved result,
      {| extension := extension w; heap := heap w;
         sessions := sessions w;
         log := log w ++ [Created t; Posted t sent] |})).
Proof.
  intros Hsel Hpost.
  rewrite (sendRequest_run envelope url w t sent Hsel), Hpost.
  split.
  - intros [Hintent Hgranted].
    apply strict_eq_str_spec in Hintent. rewrite Hintent, Hgranted. simpl.
    unfold stored, logged; simpl. by rewrite <- app_assoc.
  - intros Hother.
    destruct (strict_eq_str (intent result) "implicit_flow") eqn:Hintent;
      [destruct (truthy (granted result)) eqn:Hgranted|]; simpl; try done.
    exfalso. apply Hother. by rewrite <- strict_eq_str_spec.
Qed.

(** ** Validation *)

(** The envelope of a call that passes validation is sent as it is
    prepared. *)
Lemma dispatch_valid params url (w : World Store) i d envelope :
  Get (heap w) params "intent" = Some i → truthy i = true →
  intentInterface !! ToString i = Some d →
  prepareRequestParams (heap w) d params = Resolved envelope →
  dispatch params url w = send envelope url w.
Proof.
  intros Hget Hi Hd Hprep. unfold requestIntentConfirmation.
  by rewrite Hget, Hi, (readDescriptor_own _ _ _ Hd), Hprep.
Qed.

Lemma prepareRequestParams_resolves h d params i :
  typeof params = "object" →
  Get h params "intent" = Some i →
  truthy (prop h params "pubkey") = false
  ∨ test_pubkey (ToString (prop h params "pubkey")) = true →
  Forall (supplied_or_optional h params) (Registry.params d) →
  ∃ envelope, prepareRequestParams h d params = Resolved envelope.
Proof.
  intros Hty Hget Hpk Hall. unfold prepareRequestParams.
  rewrite Hty. simpl. rewrite Hget, (Get_total _ _ _ _ "pubkey" Hget).
  replace (truthy _ && negb _) with false
    by (destruct Hpk as [->| ->]; by rewrite ?andb_false_r).
  by apply collectParams_resolves.
Qed.

(** What [prepareRequestParams] resolves with is what the loop adds to
    [{intent}]. *)
Lemma prepareRequestParams_lookup h d params (envelope : JsObject) :
  prepareRequestParams h d params = Resolved envelope →
  ∀ k, envelope !! k =
       if decide (k ∈ (Registry.params d).*1
                  ∧ truthy (prop h params k) = true)
       then Some (prop h params k)
       else ({[ "intent" := prop h params "intent" ]} : JsObject) !! k.
Proof.
  unfold prepareRequestParams.
  destruct (negb _); [discriminate|].
  destruct (Get h params "intent") as [i|] eqn:Hi; [|discriminate].
  destruct (Get h params "pubkey") as [pk|]; [|discriminate].
  destruct (truthy pk && _); [discriminate|].
  intros Hrun k. rewrite (prop_Get _ _ _ _ Hi).
  by apply (collectParams_lookup _ _ _ _ _ _ Hrun).
Qed.

(** Every parameter of a prepared envelope holds a truthy value, so that
    an envelope carries a [pubkey] exactly when [params.pubkey] is
    truthy in [sendRequest]. *)
Lemma prepareRequestParams_truthy h d params (envelope : JsObject) k v :
  prepareRequestParams h d params = Resolved envelope →
  k ≠ "intent" → envelope !! k = Some v → truthy v = true.
Proof.
  intros Hrun Hk. rewrite (prepareRequestParams_lookup _ _ _ _ Hrun).
  case_decide as Hdec.
  - destruct Hdec as [_ Htruthy]. by intros [= <-].
  - by rewrite lookup_singleton_ne.
Qed.

(** C3.  The envelope that [prepareRequestParams] resolves with holds
    [intent], with the value read from the caller's parameters, and
    besides it exactly the parameters that the descriptor declares and
    for which the caller supplied a truthy value, each with that value;
    a parameter that the descriptor does not declare is not in it. *)
Theorem prepared_envelope_exact h d params (envelope : JsObject) :
  prepareRequestParams h d params = Resolved envelope →
  envelope !! "intent" = Some (prop h params "intent")
  ∧ (∀ k, k ≠ "intent" →
       envelope !! k =
       if decide (k ∈ (Registry.params d).*1
                  ∧ truthy (prop h params k) = true)
       then Some (prop h params k) else None)
  ∧ (∀ k, k ≠ "intent" → k ∉ (Registry.params d).*1 → envelope !! k = None).
Proof.
  intros Hrun.
  pose proof (prepareRequestParams_lookup _ _ _ _ Hrun) as Hlook.
  split_and!.
  - rewrite Hlook. case_decide; [done|]. by rewrite lookup_singleton_eq.
  - intros k Hk. rewrite Hlook. case_decide; [done|].
    by rewrite lookup_singleton_ne.
  - intros k Hk Hnot. rewrite Hlook.
    rewrite decide_False by (by intros [? _]).
    by rewrite lookup_singleton_ne.
Qed.

(** C4.  A call whose [params] has no [intent], or a falsy one, is
    rejected with the missing-intent error, and nothing else happens:
    the world is as it was. *)
Theorem missing_intent_rejected params url (w : World Store) i :
  Get (heap w) params "intent" = Some i →
  truthy i = false →
  dispatch params url w = (Rejected MissingIntent, w).
Proof.
  intros Hget Hi. unfold requestIntentConfirmation. by rewrite Hget, Hi.
Qed.

(** A call whose intent is present (truthy) and for which the registry
    read gives [undefined], the name being neither a descriptor of the
    registry nor inherited by it, is rejected with the unknown-intent
    error naming it; the world is as it was. *)
Lemma unregistered_intent_rejected params url (w : World Store) i :
  Get (heap w) params "intent" = Some i →
  truthy i = true →
  readDescriptor intentInterface (ToString i) = None →
  dispatch params url w = (Rejected (UnknownIntent i), w)
  ∧ message (UnknownIntent i)
    = "Unknown intent: " +:+ dq +:+ ToString i +:+ dq +:+ ".".
Proof.
  intros Hget Hi Hnone. unfold requestIntentConfirmation.
  by rewrite Hget, Hi, Hnone.
Qed.

(** C6 (amended).  [prepareRequestParams] rejects every [params] whose
    [typeof] is not ['object'] with the invalid-parameters error.
    Through [requestIntentConfirmation] that error is what a call gets
    when such a [params] carries a present and registered intent, as a
    function object can; a boolean, a number or a string carries no
    intent and is rejected with the missing-intent error, which is
    checked first. *)
Theorem non_object_params_rejected params url (w : World Store) :
  typeof params ≠ "object" →
  (∀ h d, prepareRequestParams h d params = Rejected InvalidParameters)
  ∧ (∀ i d,
       Get (heap w) params "intent" = Some i → truthy i = true →
       intentInterface !! ToString i = Some d →
       dispatch params url w = (Rejected InvalidParameters, w))
  ∧ (typeof params = "boolean" ∨ typeof params = "number"
     ∨ typeof params = "string" →
     dispatch params url w = (Rejected MissingIntent, w)).
Proof.
  intros Hty.
  assert (Hprep : ∀ h d,
            prepareRequestParams h d params = Rejected InvalidParameters).
  { intros h d. unfold prepareRequestParams.
    by rewrite (typeof_not_object_eqb _ Hty). }
  split_and!; [done| |].
  - intros i d Hget Hi Hd. unfold requestIntentConfirmation.
    by rewrite Hget, Hi, (readDescriptor_own _ _ _ Hd), Hprep.
  - intros Hprim. unfold requestIntentConfirmation.
    destruct params; simpl in *; try done; intuition discriminate.
Qed.


(** C8 (amended).  Take a call that passes the checks made before the
    loop over the declared parameters: the intent is present and
    registered, [params] is an object, and [pubkey] is falsy or well
    shaped.  If the descriptor marks a parameter [p] as required and [p]
    is absent or falsy in the call, the call is rejected with the
    missing-parameter error of the first declared parameter [q] that is
    required and not supplied; its message names [q] and the intent; the
    world is as it was.  [q] is [p] itself when every required parameter
    declared before [p] is supplied. *)
Theorem missing_required_rejected params url (w : World Store) i d p props :
  Get (heap w) params "intent" = Some i → truthy i = true →
  intentInterface !! ToString i = Some d →
  typeof params = "object" →
  truthy (prop (heap w) params "pubkey") = false
  ∨ test_pubkey (ToString (prop (heap w) params "pubkey")) = true →
  (p, props) ∈ Registry.params d →
  required props = true →
  truthy (prop (heap w) params p) = false →
  ∃ q,
    dispatch params url w = (Rejected (MissingRequiredParameter q i), w)
    ∧ message (MissingRequiredParameter q i)
      = "Parameter " +:+ dq +:+ q +:+ dq +:+ " is required for intent "
          +:+ dq +:+ ToString i +:+ dq +:+ "."
    ∧ (∃ before qprops after,
         Registry.params d = before ++ (q, qprops) :: after
         ∧ Forall (supplied_or_optional (heap w) params) before
         ∧ required qprops = true
         ∧ truthy (prop (heap w) params q) = false)
    ∧ (∀ before after,
         Registry.params d = before ++ (p, props) :: after →
         Forall (supplied_or_optional (heap w) params) before →
         q = p).
Proof.
  intros Hget Hi Hd Hty Hpk Hin Hreq Hp.
  destruct (first_missing_split (heap w) params (Registry.params d))
    as [Hall|(before & q & qprops & after & Hsplit & Hbefore & Hq & Hfalsy)].
  { rewrite Forall_forall in Hall. specialize (Hall _ Hin Hreq).
    simpl in Hall. congruence. }
  exists q. split_and!.
  - unfold requestIntentConfirmation. rewrite Hget, Hi, (readDescriptor_own _ _ _ Hd). simpl.
    unfold prepareRequestParams.
    rewrite Hty, Hget, (Get_total _ _ _ _ "pubkey" Hget). simpl.
    replace (truthy _ && negb _) with false
      by (destruct Hpk as [->| ->]; by rewrite ?andb_false_r).
    rewrite Hsplit.
    by rewrite (collectParams_first_missing _ _ _ _ _ _ _ _ Hbefore Hq Hfalsy).
  - done.
  - eauto 10.
  - intros before' after' Hsplit' Hbefore'. rewrite Hsplit in Hsplit'.
    by eapply first_missing_unique.
Qed.

(** C9.  A call that ends in one of the dispatcher's validation errors
    has created no transport, posted nothing and written nothing: the
    world, its effect log and its session store included, is as it was
    before the call. *)
Theorem validation_error_before_any_effect params url (w w' : World Store) e :
  dispatch params url w = (Rejected e, w') →
  is_validation_error e = true →
  w' = w ∧ log w' = log w ∧ sessions w' = sessions w.
Proof.
  intros Hrun He.
  enough (w' = w) as -> by done.
  unfold requestIntentConfirmation in Hrun.
  destruct (Get (heap w) params "intent") as [i|]; [|discriminate].
  destruct (negb (truthy i)); [by injection Hrun|].
  destruct (readDescriptor intentInterface (ToString i)) as [d|]; [|by injection Hrun].
  destruct (prepareRequestParams (heap w) d params) as [envelope|e'|];
    [|by injection Hrun|discriminate].
  apply sendRequest_not_validation_error in Hrun. congruence.
Qed.

End DispatcherProperties.

(** ** The public entry point *)

Section RequestProperties.

Context {Store : Type} `{SessionStorage Store}.
Variable intentInterface : gmap string IntentDescriptor.
Variable postMessage : Transport → JsObject → IntentResult + string.

Local Abbreviation dispatch := (requestIntentConfirmation intentInterface postMessage).
Local Abbreviation request := (AlbedoIntent.request intentInterface postMessage).

Lemma own_Put_eq h l k v : own (Put h l k v) l k = v.
Proof. unfold own, Put. by rewrite lookup_insert_eq; simpl; rewrite lookup_insert_eq. Qed.

Lemma own_Put_ne h l k k' v : k ≠ k' → own (Put h l k v) l k' = own h l k'.
Proof.
  intros Hne. unfold own, Put. rewrite lookup_insert_eq. simpl.
  by rewrite lookup_insert_ne.
Qed.

Lemma Put_other h l l' k v : l ≠ l' → Put h l k v !! l' = h !! l'.
Proof. intros Hne. unfold Put. by rewrite lookup_insert_ne. Qed.

(** The dispatcher reads the heap and never writes it. *)
Lemma dispatch_heap params url (w : World Store) :
  heap (dispatch params url w).2 = heap w.
Proof.
  unfold requestIntentConfirmation.
  destruct (Get (heap w) params "intent") as [i|]; [|done].
  destruct (negb (truthy i)); [done|].
  destruct (readDescriptor intentInterface (ToString i)) as [d|]; [|done].
  destruct (prepareRequestParams (heap w) d params) as [envelope| |]; try done.
  destruct (selectTransport envelope url w) as [[t sent] w1] eqn:Hsel.
  rewrite (sendRequest_run postMessage envelope url w t sent) by (by rewrite Hsel).
  destruct (postMessage t sent) as [result|]; [|done]. simpl.
  by destruct (strict_eq_str _ _ && truthy _).
Qed.

(** Whatever the dispatcher posts carries the [intent] that it read from
    [params]. *)
Lemma dispatch_posts_intent params url (w : World Store) i t (sent : JsObject) :
  Get (heap w) params "intent" = Some i →
  Posted t sent ∈ log (dispatch params url w).2 →
  Posted t sent ∈ log w ∨ sent !! "intent" = Some i.
Proof.
  intros Hget. unfold requestIntentConfirmation. rewrite Hget.
  destruct (negb (truthy i)); [by left|].
  destruct (readDescriptor intentInterface (ToString i)) as [d|]; [|by left].
  destruct (prepareRequestParams (heap w) d params) as [envelope| |] eqn:Hprep;
    [|by left..].
  assert (Hintent : envelope !! "intent" = Some i).
  { rewrite (prepareRequestParams_lookup _ _ _ _ Hprep), (prop_Get _ _ _ _ Hget).
    case_decide; [done|]. by rewrite lookup_singleton_eq. }
  pose proof (selectTransport_run envelope url w) as Hsel. simpl in Hsel.
  rewrite (sendRequest_run postMessage envelope url w _ _ (f_equal fst Hsel)).
  set (t0 := if extension w then _ else _).
  set (sent0 := match applicableSession w envelope with
                | Some s => _ | None => _ end).
  assert (Hsent : sent0 !! "intent" = Some i).
  { subst sent0. destruct (applicableSession w envelope); [|done].
    by rewrite lookup_insert_ne. }
  intros Hin.
  assert (Hin' : Posted t sent ∈ log w ++ [Created t0; Posted t0 sent0]).
  { destruct (postMessage t0 sent0) as [result|]; [|done]. simpl in Hin.
    destruct (strict_eq_str _ _ && truthy _); [|done]. simpl in Hin.
    apply elem_of_app in Hin as [Hin|Hin]; [done|].
    apply list_elem_of_singleton in Hin. discriminate. }
  apply elem_of_app in Hin' as [Hin'|Hin']; [by left|].
  apply elem_of_cons in Hin' as [Hin'|Hin']; [discriminate|].
  apply list_elem_of_singleton in Hin'. injection Hin' as _ ->. by right.
Qed.

(** The cases of [request] in which a new object is the argument. *)
Local Ltac boxed :=
  eexists _, _; split_and!;
  [ reflexivity
  | simpl; by rewrite own_Put_eq
  | intros ? [[=]|[? [=]]]
  | intros _ _; eexists; split_and!;
    [ reflexivity
    | by apply not_elem_of_dom, is_fresh
    | intros l' Hne; rewrite Put_other by done; by rewrite lookup_insert_ne ] ].

(** A frozen [params] makes [Object.assign] throw, before anything is
    written or called. *)
Lemma requestWith_frozen
    (imported : option (value → string → M Store (Settled IntentResult)))
    i l (w : World Store) :
  AlbedoIntent.requestWith imported i (VFrozen l) w = (Thrown, w).
Proof. done. Qed.

(** With any other [params], the imported name is called with an object
    whose [intent] is the first argument of [request]: [params] itself
    when it is an object or a function, and a new object otherwise. *)
Lemma requestWith_run
    (imported : option (value → string → M Store (Settled IntentResult)))
    i params (w : World Store) :
  (∀ l, params ≠ VFrozen l) →
  ∃ target h',
    AlbedoIntent.requestWith imported i params w
    = AlbedoIntent.invoke imported target AlbedoIntent.frontendUrl
        (AlbedoIntent.withHeap w h')
    ∧ Get h' target "intent" = Some i
    ∧ (∀ l, params = VObj l ∨ (∃ src, params = VFun l src) →
         target = params ∧ h' = Put (heap w) l "intent" i)
    ∧ ((∀ l, params ≠ VObj l) → (∀ l src, params ≠ VFun l src) →
       ∃ l, target = VObj l
            ∧ heap w !! l = None
            ∧ ∀ l', l' ≠ l → h' !! l' = heap w !! l').
Proof.
  intros Hwritable.
  unfold AlbedoIntent.requestWith, AlbedoIntent.assignIntent,
    AlbedoIntent.ToObject, alloc.
  destruct params as [| |b|n|s|l|l src|l]; simpl.
  1, 2: by boxed.
  - destruct b; simpl; by boxed.
  - destruct (negb (n =? 0)); simpl; by boxed.
  - destruct (negb (String.eqb s EmptyString)); simpl; by boxed.
  - eexists _, _. split_and!; [reflexivity | simpl; by rewrite own_Put_eq | |].
    + intros l' [[= <-]|[? [=]]]. by split.
    + intros Hno. by destruct (Hno l).
  - eexists _, _. split_and!; [reflexivity | simpl; by rewrite own_Put_eq | |].
    + intros l' [[=]|[? [= <- _]]]. by split.
    + intros _ Hno. by destruct (Hno l src).
  - by destruct (Hwritable l).
Qed.

(** [request], bound to the dispatcher, throws on a frozen [params] and
    otherwise reaches the dispatcher with an object whose [intent] is
    its first argument. *)
Lemma request_run i params (w : World Store) :
  request i params w = (Thrown, w)
  ∨ ∃ target h',
      request i params w
      = dispatch target AlbedoIntent.frontendUrl (AlbedoIntent.withHeap w h')
      ∧ Get h' target "intent" = Some i
      ∧ (∀ l, params = VObj l ∨ (∃ src, params = VFun l src) →
           target = params ∧ h' = Put (heap w) l "intent" i).
Proof.
  assert (Hcases : (∃ l, params = VFrozen l) ∨ ∀ l, params ≠ VFrozen l)
    by (destruct params; eauto; right; discriminate).
  destruct Hcases as [[l ->]|Hwritable]; [by left|right].
  destruct (requestWith_run
              (Some (requestIntentConfirmation intentInterface postMessage))
              i params w Hwritable) as (target & h' & Hrun & Hget & Hobj & _).
  exists target, h'. by split_and!.
Qed.

(** What the bound [request] posts carries its first argument. *)
Lemma request_posts i params (w : World Store) t (sent : JsObject) :
  Posted t sent ∈ log (request i params w).2 →
  Posted t sent ∈ log w ∨ sent !! "intent" = Some i.
Proof.
  destruct (request_run i params w) as [->|(target & h' & -> & Hget & _)];
    [by left|].
  intros Hin. by apply (dispatch_posts_intent _ _ _ i) in Hin.
Qed.


End RequestProperties.

(** * The dispatcher at work *)

Lemma transport_selection_first_match_witness :
  ∃ rest,
    log (sendRequest Sample.surface Runs.txEnvelope Runs.url
           (Sample.world false Runs.txCall Sample.oneSession)).2
    = Created (IframeTransport Runs.url)
      :: Posted (IframeTransport Runs.url)
           (<["session" := VStr "token-1"]> Runs.txEnvelope)
      :: rest.
Proof.
  destruct (transport_selection_first_match Sample.surface Runs.txEnvelope
              Runs.url (Sample.world false Runs.txCall Sample.oneSession))
    as (t & sent & rest & Hlog & _ & _ & Hsession & _).
  destruct (Hsession Sample.standing) as [-> Hframe];
    [vm_compute; reflexivity | vm_compute; reflexivity |].
  rewrite (Hframe eq_refl) in Hlog. exists rest. exact Hlog.
Defined.

Lemma granted_session_is_stored_witness :
  ((selectTransport Runs.flowCall Runs.url
      (Sample.world false Runs.flowCall Sample.noSessions)).1
   = (DialogTransport Runs.url, Runs.flowCall)
   ∧ Sample.surface (DialogTransport Runs.url) Runs.flowCall = inl Sample.grant
   ∧ sendRequest Sample.surface Runs.flowCall Runs.url
       (Sample.world false Runs.flowCall Sample.noSessions)
     = (Resolved Sample.grant,
        {| extension := false; heap := {[ 1%positive := Runs.flowCall ]};
           sessions := MemoryStore.add Sample.noSessions Sample.grant;
           log := [Created (DialogTransport Runs.url);
                   Posted (DialogTransport Runs.url) Runs.flowCall;
                   SessionAdded Sample.grant] |}))
  ∧ ((selectTransport Runs.txEnvelope Runs.url
        (Sample.world true Runs.txCall Sample.noSessions)).1
     = (ExtensionTransport, Runs.txEnvelope)
     ∧ Sample.surface ExtensionTransport Runs.txEnvelope = inl Sample.signed
     ∧ sendRequest Sample.surface Runs.txEnvelope Runs.url
         (Sample.world true Runs.txCall Sample.noSessions)
       = (Resolved Sample.signed,
          {| extension := true; heap := {[ 1%positive := Runs.txCall ]};
             sessions := Sample.noSessions;
             log := [Created ExtensionTransport;
                     Posted ExtensionTransport Runs.txEnvelope] |})).
Proof.
  assert (Hsel : (selectTransport Runs.flowCall Runs.url
                    (Sample.world false Runs.flowCall Sample.noSessions)).1
                 = (DialogTransport Runs.url, Runs.flowCall))
    by (vm_compute; reflexivity).
  assert (Hpost : Sample.surface (DialogTransport Runs.url) Runs.flowCall
                  = inl Sample.grant) by (vm_compute; reflexivity).
  assert (Hsel' : (selectTransport Runs.txEnvelope Runs.url
                     (Sample.world true Runs.txCall Sample.noSessions)).1
                  = (ExtensionTransport, Runs.txEnvelope))
    by (vm_compute; reflexivity).
  assert (Hpost' : Sample.surface ExtensionTransport Runs.txEnvelope
                   = inl Sample.signed) by (vm_compute; reflexivity).
  split; split_and!; [exact Hsel | exact Hpost | | exact Hsel' | exact Hpost' |].
  - apply (granted_session_is_stored Sample.surface _ _ _ _ _ _ Hsel Hpost).
    split; reflexivity.
  - apply (granted_session_is_stored Sample.surface _ _ _ _ _ _ Hsel' Hpost').
    intros [Hflow _]. discriminate Hflow.
Defined.

Lemma prepared_envelope_exact_witness :
  prepareRequestParams {[ 1%positive := Runs.txCall ]}
    {| params := [("xdr", Sample.mandatory); ("pubkey", Sample.optional);
                  ("network", Sample.optional); ("submit", Sample.optional)] |}
    Runs.caller
  = Resolved Runs.txEnvelope
  ∧ Runs.txEnvelope !! "intent" = Some (VStr "tx")
  ∧ Runs.txEnvelope !! "junk" = None.
Proof.
  assert (Hrun : prepareRequestParams {[ 1%positive := Runs.txCall ]}
            {| params := [("xdr", Sample.mandatory); ("pubkey", Sample.optional);
                          ("network", Sample.optional);
                          ("submit", Sample.optional)] |}
            Runs.caller
          = Resolved Runs.txEnvelope) by (vm_compute; reflexivity).
  destruct (prepared_envelope_exact _ _ _ _ Hrun) as (Hintent & _ & Hdropped).
  split_and!; [exact Hrun | exact Hintent |].
  apply Hdropped; [discriminate|]. vm_compute.
  intros Hin. repeat (apply elem_of_cons in Hin as [Heq|Hin]; [discriminate|]).
  by apply elem_of_nil in Hin.
Defined.

Lemma missing_intent_rejected_witness :
  Get (heap (Sample.world false Runs.noIntentCall Sample.noSessions))
    Runs.caller "intent" = Some VUndefined
  ∧ truthy VUndefined = false
  ∧ requestIntentConfirmation Sample.registry Sample.surface Runs.caller
      Runs.url (Sample.world false Runs.noIntentCall Sample.noSessions)
    = (Rejected MissingIntent,
       Sample.world false Runs.noIntentCall Sample.noSessions).
Proof.
  assert (Hget : Get (heap (Sample.world false Runs.noIntentCall
                              Sample.noSessions)) Runs.caller "intent"
                 = Some VUndefined) by (vm_compute; reflexivity).
  split_and!; [exact Hget | reflexivity |].
  exact (missing_intent_rejected Sample.registry Sample.surface _ Runs.url _ _
           Hget eq_refl).
Defined.

(** C5.  The registry has no descriptor for ['constructor'], and yet a
    call with that intent is not rejected as unknown: the read on line
    16 finds the inherited [Object.prototype.constructor], the test on
    line 18 passes, nothing is declared for the loop to check, and the
    envelope [{intent: 'constructor'}] is posted on a new dialog
    transport. *)
Lemma inherited_intent_name_is_dispatched :
  Sample.registry !! "constructor" = None
  ∧ requestIntentConfirmation Sample.registry Sample.surface Runs.caller
      Runs.url
      (Sample.world false ApiRuns.constructorCall Sample.noSessions)
    = (Rejected (TransportFailure "rejected"),
       {| extension := false;
          heap := {[ 1%positive := ApiRuns.constructorCall ]};
          sessions := Sample.noSessions;
          log := [Created (DialogTransport Runs.url);
                  Posted (DialogTransport Runs.url) ApiRuns.constructorCall] |})
  ∧ (requestIntentConfirmation Sample.registry Sample.surface Runs.caller
       Runs.url
       (Sample.world false ApiRuns.constructorCall Sample.noSessions)).1
    ≠ Rejected (UnknownIntent (VStr "constructor")).
Proof.
  split_and!; [vm_compute; reflexivity..|].
  vm_compute. discriminate.
Qed.

(** C6, as stated, fails for a number: [5] is not an object, and a call
    with it is rejected with the missing-intent error, not with the
    invalid-parameters one. *)
Lemma non_object_params_counterexample :
  typeof (VNum 5) ≠ "object"
  ∧ (requestIntentConfirmation Sample.registry Sample.surface (VNum 5)
       Runs.url (Sample.world false Runs.txCall Sample.noSessions)).1
    = Rejected MissingIntent
  ∧ (requestIntentConfirmation Sample.registry Sample.surface (VNum 5)
       Runs.url (Sample.world false Runs.txCall Sample.noSessions)).1
    ≠ Rejected InvalidParameters.
Proof. split_and!; [discriminate | reflexivity | discriminate]. Qed.

Lemma non_object_params_rejected_witness :
  typeof Runs.callback ≠ "object"
  ∧ Get (heap (Sample.world false Runs.txCall Sample.noSessions))
      Runs.callback "intent" = Some (VStr "tx")
  ∧ requestIntentConfirmation Sample.registry Sample.surface Runs.callback
      Runs.url (Sample.world false Runs.txCall Sample.noSessions)
    = (Rejected InvalidParameters,
       Sample.world false Runs.txCall Sample.noSessions)
  ∧ requestIntentConfirmation Sample.registry Sample.surface (VStr "tx")
      Runs.url (Sample.world false Runs.txCall Sample.noSessions)
    = (Rejected MissingIntent,
       Sample.world false Runs.txCall Sample.noSessions).
Proof.
  assert (Hfun : typeof Runs.callback ≠ "object") by discriminate.
  assert (Hstr : typeof (VStr "tx") ≠ "object") by discriminate.
  assert (Hget : Get (heap (Sample.world false Runs.txCall Sample.noSessions))
                   Runs.callback "intent" = Some (VStr "tx"))
    by (vm_compute; reflexivity).
  split_and!; [exact Hfun | exact Hget | |].
  - refine (proj1 (proj2 (non_object_params_rejected Sample.registry
                            Sample.surface _ Runs.url _ Hfun))
              (VStr "tx") _ Hget eq_refl _).
    vm_compute; reflexivity.
  - apply (proj2 (proj2 (non_object_params_rejected Sample.registry
                           Sample.surface _ Runs.url _ Hstr))).
    right; right; reflexivity.
Defined.



(** C8, as stated, fails when a required parameter declared before [p]
    is missing too, and when the pubkey is ill shaped: [pay] without
    [destination] and [amount] is rejected with an error that names
    [destination] and not [amount], and [tx] without [xdr] and with an
    ill-shaped pubkey is rejected with the invalid-pubkey error. *)
Lemma missing_required_counterexample :
  (("amount", Sample.mandatory) ∈
     [("destination", Sample.mandatory); ("amount", Sample.mandatory)]
   ∧ prop (heap (Sample.world false Runs.payCall Sample.noSessions))
       Runs.caller "amount" = VUndefined
   ∧ (requestIntentConfirmation Sample.registry Sample.surface Runs.caller
        Runs.url (Sample.world false Runs.payCall Sample.noSessions)).1
     = Rejected (MissingRequiredParameter "destination" (VStr "pay"))
   ∧ message (MissingRequiredParameter "destination" (VStr "pay"))
     = "Parameter " +:+ dq +:+ "destination" +:+ dq
         +:+ " is required for intent " +:+ dq +:+ "pay" +:+ dq +:+ "."
   ∧ MissingRequiredParameter "destination" (VStr "pay")
     ≠ MissingRequiredParameter "amount" (VStr "pay"))
  ∧ (prop (heap (Sample.world false Runs.badKeyNoXdrCall Sample.noSessions))
       Runs.caller "xdr" = VUndefined
     ∧ (requestIntentConfirmation Sample.registry Sample.surface Runs.caller
          Runs.url (Sample.world false Runs.badKeyNoXdrCall Sample.noSessions)).1
       = Rejected InvalidPubkey).
Proof.
  split_and!; try (vm_compute; reflexivity).
  - right; left.
  - discriminate.
Qed.

Lemma missing_required_rejected_witness :
  Get (heap (Sample.world false Runs.payNoAmountCall Sample.noSessions))
    Runs.caller "intent" = Some (VStr "pay")
  ∧ truthy (prop (heap (Sample.world false Runs.payNoAmountCall
                          Sample.noSessions)) Runs.caller "amount") = false
  ∧ requestIntentConfirmation Sample.registry Sample.surface Runs.caller
      Runs.url (Sample.world false Runs.payNoAmountCall Sample.noSessions)
    = (Rejected (MissingRequiredParameter "amount" (VStr "pay")),
       Sample.world false Runs.payNoAmountCall Sample.noSessions).
Proof.
  assert (Hget : Get (heap (Sample.world false Runs.payNoAmountCall
                              Sample.noSessions)) Runs.caller "intent"
                 = Some (VStr "pay")) by (vm_compute; reflexivity).
  assert (Hfalsy : truthy (prop (heap (Sample.world false Runs.payNoAmountCall
                                         Sample.noSessions))
                             Runs.caller "amount") = false)
    by (vm_compute; reflexivity).
  split_and!; [exact Hget | exact Hfalsy |].
  destruct (missing_required_rejected Sample.registry Sample.surface
              Runs.caller Runs.url
              (Sample.world false Runs.payNoAmountCall Sample.noSessions)
              (VStr "pay")
              {| params := [("destination", Sample.mandatory);
                            ("amount", Sample.mandatory);
                            ("asset_code", Sample.optional);
                            ("memo", Sample.optional);
                            ("pubkey", Sample.optional);
                            ("network", Sample.optional);
                            ("submit", Sample.optional)] |}
              "amount" Sample.mandatory)
    as (q & Hrun & _ & _ & Hfirst);
    [ exact Hget | reflexivity | vm_compute; reflexivity | reflexivity
    | left; vm_compute; reflexivity | right; left | reflexivity
    | exact Hfalsy | ].
  rewrite <- (Hfirst [("destination", Sample.mandatory)]
                [("asset_code", Sample.optional); ("memo", Sample.optional);
                 ("pubkey", Sample.optional); ("network", Sample.optional);
                 ("submit", Sample.optional)]).
  - exact Hrun.
  - reflexivity.
  - constructor; [|constructor]. intros _. vm_compute; reflexivity.
Defined.

Lemma validation_error_before_any_effect_witness :
  requestIntentConfirmation Sample.registry Sample.surface Runs.caller
    Runs.url (Sample.world true Runs.badKeyCall Sample.oneSession)
  = (Rejected InvalidPubkey,
     Sample.world true Runs.badKeyCall Sample.oneSession)
  ∧ is_validation_error InvalidPubkey = true
  ∧ log (Sample.world true Runs.badKeyCall Sample.oneSession) = []
  ∧ sessions (Sample.world true Runs.badKeyCall Sample.oneSession)
    = Sample.oneSession.
Proof.
  assert (Hrun : requestIntentConfirmation Sample.registry Sample.surface
                   Runs.caller Runs.url
                   (Sample.world true Runs.badKeyCall Sample.oneSession)
                 = (Rejected InvalidPubkey,
                    Sample.world true Runs.badKeyCall Sample.oneSession))
    by (vm_compute; reflexivity).
  destruct (validation_error_before_any_effect Sample.registry Sample.surface
              _ _ _ _ _ Hrun eq_refl) as (_ & Hlog & Hsessions).
  split_and!; [exact Hrun | reflexivity | exact Hlog | exact Hsessions].
Defined.



(** * Further properties of the dispatcher *)

Lemma collectParams_resolved_inv h params intent declared acc env :
  collectParams h params intent declared acc = Resolved env →
  Forall (supplied_or_optional h params) declared.
Proof.
  revert acc. induction declared as [|[key props] rest IH]; intros acc Hrun;
    [constructor|].
  simpl in Hrun. destruct (truthy (prop h params key)) eqn:Hkey.
  - constructor; [by intros _|by eapply IH].
  - destruct (required props) eqn:Hreq; [discriminate|].
    constructor; [|by eapply IH]. intros Hr. simpl in Hr. congruence.
Qed.

Lemma collectParams_not_thrown h params intent declared acc :
  collectParams h params intent declared acc ≠ Thrown.
Proof.
  revert acc. induction declared as [|[key props] rest IH]; intros acc; simpl;
    [discriminate|].
  destruct (truthy _); [apply IH|]. destruct (required props); [discriminate|].
  apply IH.
Qed.

Lemma collectParams_rejection h params intent declared acc e :
  collectParams h params intent declared acc = Rejected e →
  is_validation_error e = true.
Proof.
  revert acc. induction declared as [|[key props] rest IH]; intros acc; simpl;
    [discriminate|].
  destruct (truthy _); [apply IH|].
  destruct (required props); [by intros [= <-]|apply IH].
Qed.

Lemma prepareRequestParams_resolved_inv h d params (envelope : JsObject) :
  prepareRequestParams h d params = Resolved envelope →
  typeof params = "object"
  ∧ (truthy (prop h params "pubkey") = false
     ∨ test_pubkey (ToString (prop h params "pubkey")) = true)
  ∧ Forall (supplied_or_optional h params) (Registry.params d).
Proof.
  unfold prepareRequestParams.
  destruct (String.eqb (typeof params) "object") eqn:Hty; [|discriminate].
  apply String.eqb_eq in Hty. simpl.
  destruct (Get h params "intent") as [i|] eqn:Hi; [|discriminate].
  rewrite (Get_total _ _ _ _ "pubkey" Hi).
  destruct (truthy (prop h params "pubkey")) eqn:Hpk; simpl.
  - destruct (test_pubkey _) eqn:Hshape; [|discriminate]. simpl.
    intros Hrun. split_and!; [done|by right|by eapply collectParams_resolved_inv].
  - intros Hrun. split_and!; [done|by left|by eapply collectParams_resolved_inv].
Qed.

Lemma prepareRequestParams_rejection h d params e :
  prepareRequestParams h d params = Rejected e →
  is_validation_error e = true.
Proof.
  unfold prepareRequestParams.
  destruct (negb _); [by intros [= <-]|].
  destruct (Get h params "intent"); [|discriminate].
  destruct (Get h params "pubkey"); [|discriminate].
  destruct (truthy _ && _); [by intros [= <-]|].
  apply collectParams_rejection.
Qed.

Lemma prepareRequestParams_thrown h d params i :
  Get h params "intent" = Some i →
  prepareRequestParams h d params ≠ Thrown.
Proof.
  intros Hi. unfold prepareRequestParams.
  destruct (negb _); [discriminate|].
  rewrite Hi, (Get_total _ _ _ _ "pubkey" Hi).
  destruct (truthy _ && _); [discriminate|].
  apply collectParams_not_thrown.
Qed.

Lemma Get_none h v k : Get h v k = None ↔ v = VUndefined ∨ v = VNull.
Proof.
  destruct v; simpl; split; try done; try (intros [|]; discriminate); eauto.
Qed.

Lemma log_not_extended {A} (l : list A) x rest : l ≠ l ++ x :: rest.
Proof.
  intros Heq. apply (f_equal (@List.length A)) in Heq.
  rewrite length_app in Heq. simpl in Heq. lia.
Qed.

Section DispatchComposition.

Context {Store : Type} `{SessionStorage Store}.
Variable intentInterface : gmap string IntentDescriptor.
Variable postMessage : Transport → JsObject → IntentResult + string.

Local Abbreviation dispatch := (requestIntentConfirmation intentInterface postMessage).
Local Abbreviation send := (sendRequest postMessage).

(** A call either passes validation and is sent as prepared, or ends
    where it started, thrown or rejected by validation. *)
Lemma dispatch_cases params url (w : World Store) :
  (∃ i d envelope,
     acceptable intentInterface (heap w) params i d
     ∧ prepareRequestParams (heap w) d params = Resolved envelope
     ∧ dispatch params url w = send envelope url w)
  ∨ (dispatch params url w = (Thrown, w)
     ∧ (params = VUndefined ∨ params = VNull))
  ∨ (∃ e, dispatch params url w = (Rejected e, w)
          ∧ is_validation_error e = true
          ∧ ¬ ∃ i d, acceptable intentInterface (heap w) params i d).
Proof.
  unfold requestIntentConfirmation.
  destruct (Get (heap w) params "intent") as [i|] eqn:Hget.
  2: { right; left. split; [done|]. by apply Get_none in Hget. }
  destruct (truthy i) eqn:Hi; simpl.
  2: { right; right. exists MissingIntent. split_and!; [done..|].
       intros (i' & d & Hget' & Hi' & _). congruence. }
  destruct (readDescriptor intentInterface (ToString i)) as [d|] eqn:Hd.
  2: { right; right. exists (UnknownIntent i). split_and!; [done..|].
       intros (i' & d & Hget' & _ & Hd' & _). congruence. }
  destruct (prepareRequestParams (heap w) d params) as [envelope|e|] eqn:Hprep.
  - left. exists i, d, envelope. split_and!; try done.
    apply prepareRequestParams_resolved_inv in Hprep as (? & ? & ?).
    by split_and!.
  - right; right. exists e. split_and!; [done| |].
    + by eapply prepareRequestParams_rejection.
    + intros (i' & d' & Hget' & _ & Hd' & Hty & Hpk & Hall).
      assert (i' = i) as -> by congruence.
      assert (d' = d) as -> by congruence.
      destruct (prepareRequestParams_resolves (heap w) d params i)
        as [envelope Hres]; try done. congruence.
  - by apply prepareRequestParams_thrown with (d := d) in Hget.
Qed.

Lemma send_run (envelope : JsObject) url (w : World Store) :
  ∃ t sent,
    (selectTransport envelope url w).1 = (t, sent)
    ∧ ((∃ result,
          postMessage t sent = inl result
          ∧ (send envelope url w).1 = Resolved result
          ∧ ((send envelope url w).2 = logged w [Created t; Posted t sent]
             ∨ (send envelope url w).2
               = stored (logged w [Created t; Posted t sent]) result))
       ∨ (∃ reason,
            postMessage t sent = inr reason
            ∧ send envelope url w
              = (Rejected (TransportFailure reason),
                 logged w [Created t; Posted t sent]))).
Proof.
  destruct (selectTransport envelope url w) as [[t sent] w1] eqn:Hsel.
  exists t, sent. split; [done|].
  rewrite (sendRequest_run postMessage envelope url w t sent)
    by (by rewrite Hsel).
  destruct (postMessage t sent) as [result|reason]; [left|right]; [|eauto].
  exists result. split_and!; [done..|]. simpl.
  destruct (strict_eq_str _ _ && truthy _); eauto.
Qed.

Lemma send_log (envelope : JsObject) url (w : World Store) :
  ∃ t sent rest,
    (selectTransport envelope url w).1 = (t, sent)
    ∧ log (send envelope url w).2 = log w ++ Created t :: Posted t sent :: rest
    ∧ ∀ e, e ∈ rest → ∃ r, e = SessionAdded r.
Proof.
  destruct (send_run envelope url w)
    as (t & sent & Hsel & [(r & _ & _ & [-> | ->])|(reason & _ & ->)]).
  - exists t, sent, []. split_and!; [done..|]. by intros e ?%elem_of_nil.
  - exists t, sent, [SessionAdded r]. split_and!; [done| |].
    + simpl. by rewrite <- app_assoc.
    + intros e ->%list_elem_of_singleton. eauto.
  - exists t, sent, []. split_and!; [done..|]. by intros e ?%elem_of_nil.
Qed.

(** Whatever a call posts was prepared from it and went through the
    choice of the transport. *)
Lemma dispatch_posted params url (w : World Store) t (sent : JsObject) :
  Posted t sent ∈ log (dispatch params url w).2 →
  Posted t sent ∈ log w
  ∨ ∃ i d envelope,
      acceptable intentInterface (heap w) params i d
      ∧ prepareRequestParams (heap w) d params = Resolved envelope
      ∧ (selectTransport envelope url w).1 = (t, sent).
Proof.
  destruct (dispatch_cases params url w)
    as [(i & d & envelope & Hacc & Hprep & ->)|[[-> _]|(e & -> & _)]];
    [|by left..].
  destruct (send_log envelope url w) as (t0 & sent0 & rest & Hsel & -> & Hrest).
  intros [Hin|Hin]%elem_of_app; [by left|].
  apply elem_of_cons in Hin as [Hin|Hin]; [discriminate|].
  apply elem_of_cons in Hin as [[= -> ->]|Hin]; [right; eauto 10|].
  apply Hrest in Hin as [r Hr]. discriminate.
Qed.

(** X1.  A call that rejects with the failure of the exchange has
    created one transport and posted once on it, the reason is the one
    the exchange gave, and nothing else happened: the session store is
    as it was, and nothing was sent a second time. *)
Theorem transport_failure_surfaced params url (w w' : World Store) reason :
  dispatch params url w = (Rejected (TransportFailure reason), w') →
  ∃ t sent,
    postMessage t sent = inr reason
    ∧ log w' = log w ++ [Created t; Posted t sent]
    ∧ sessions w' = sessions w
    ∧ heap w' = heap w
    ∧ message (TransportFailure reason) = reason.
Proof.
  destruct (dispatch_cases params url w)
    as [(i & d & envelope & _ & _ & ->)|[[-> _]|(e & -> & He & _)]].
  - destruct (send_run envelope url w)
      as (t & sent & _ & [(r & _ & Hres & _)|(reason' & Hpost & ->)]).
    + intros Hrun. rewrite Hrun in Hres. discriminate.
    + intros [= -> <-]. exists t, sent. by split_and!.
  - discriminate.
  - intros [= -> _]. discriminate.
Qed.

(** X2.  A call creates a transport and posts on it exactly when it
    passes validation: its intent is present and the registry read gives
    a descriptor for it (its own, or a name inherited from
    [Object.prototype]), [params] is an object, [pubkey] is falsy or
    well shaped and no required parameter is missing.  Every other call
    leaves the world as it was. *)
Theorem dispatch_posts_iff_acceptable params url (w : World Store) :
  ((∃ t sent rest,
      log (dispatch params url w).2
      = log w ++ Created t :: Posted t sent :: rest)
   ↔ ∃ i d, acceptable intentInterface (heap w) params i d)
  ∧ ((¬ ∃ i d, acceptable intentInterface (heap w) params i d) →
     (dispatch params url w).2 = w).
Proof.
  destruct (dispatch_cases params url w)
    as [(i & d & envelope & Hacc & _ & ->)
       |[[-> Hnull]|(e & -> & _ & Hnot)]].
  - split; [|intros []; eauto].
    split; [eauto|]. intros _.
    destruct (send_log envelope url w) as (t & sent & rest & _ & Hlog & _).
    eauto.
  - split; [|done]. split.
    + intros (t & sent & rest & Hlog). simpl in Hlog.
      by apply log_not_extended in Hlog.
    + intros (i & d & Hget & _). exfalso.
      destruct Hnull as [-> | ->]; discriminate.
  - split; [|done]. split; [|done].
    intros (t & sent & rest & Hlog). simpl in Hlog.
    by apply log_not_extended in Hlog.
Qed.

(** What is posted is the prepared envelope, with [session] replaced
    when a session is found. *)
Lemma selected_envelope (envelope : JsObject) url (w : World Store) t sent :
  (selectTransport envelope url w).1 = (t, sent) →
  (applicableSession w envelope = None ∧ sent = envelope
   ∧ t = if extension w then ExtensionTransport else DialogTransport url)
  ∨ (∃ s, applicableSession w envelope = Some s
          ∧ sent = <["session" := VStr (key s)]> envelope
          ∧ t = if extension w then ExtensionTransport
                else IframeTransport url).
Proof.
  rewrite selectTransport_run. simpl. intros [= <- <-].
  destruct (applicableSession w envelope) as [s|]; [right; eauto|left; eauto].
Qed.


(** X5.  A [pubkey] that reaches a transport is the caller's, and its
    text is [G] followed by 55 digits or capital letters. *)
Theorem posted_pubkey_well_shaped params url (w : World Store)
    t (sent : JsObject) v :
  Posted t sent ∈ log (dispatch params url w).2 →
  Posted t sent ∉ log w →
  sent !! "pubkey" = Some v →
  v = prop (heap w) params "pubkey"
  ∧ ∃ rest, ToString v = String "G" rest
            ∧ String.length rest = 55%nat
            ∧ Forall (fun c => is_digit_or_upper c = true)
                     (list_ascii_of_string rest).
Proof.
  intros Hin Hnew Hk.
  apply dispatch_posted in Hin
    as [?|(i & d & envelope & (_ & _ & _ & _ & Hpk & _) & Hprep & Hsel)];
    [done|].
  assert (Henv : envelope !! "pubkey" = Some v).
  { apply selected_envelope in Hsel as [(_ & -> & _)|(s & _ & -> & _)];
      [done|]. by rewrite lookup_insert_ne in Hk. }
  rewrite (prepareRequestParams_lookup _ _ _ _ Hprep) in Henv.
  case_decide as Hdec; [|by rewrite lookup_singleton_ne in Henv].
  destruct Hdec as [_ Htruthy]. injection Henv as <-. split; [done|].
  apply test_pubkey_spec. destruct Hpk; congruence.
Qed.

(** X6.  When the descriptor does not declare [session], a [session]
    that reaches a transport is the token of the session that the store
    returned for the intent and the pubkey of the call: a caller cannot
    put one there. *)
Theorem posted_session_comes_from_store params url (w : World Store) i d
    t (sent : JsObject) v :
  Get (heap w) params "intent" = Some i →
  intentInterface !! ToString i = Some d →
  "session" ∉ (Registry.params d).*1 →
  Posted t sent ∈ log (dispatch params url w).2 →
  Posted t sent ∉ log w →
  sent !! "session" = Some v →
  ∃ s,
    getImplicitSession (sessions w) i (prop (heap w) params "pubkey") = Some s
    ∧ v = VStr (key s)
    ∧ truthy (prop (heap w) params "pubkey") = true
    ∧ "pubkey" ∈ (Registry.params d).*1.
Proof.
  intros Hget Hd Hundeclared Hin Hnew Hk.
  apply dispatch_posted in Hin
    as [?|(i' & d' & envelope & (Hget' & _ & Hd' & _) & Hprep & Hsel)]; [done|].
  assert (i' = i) as -> by congruence.
  assert (d' = d) as -> by (apply readDescriptor_own in Hd; congruence).
  pose proof (prepareRequestParams_lookup _ _ _ _ Hprep) as Hlook.
  apply selected_envelope in Hsel as [(_ & -> & _)|(s & Hfound & -> & _)].
  - rewrite Hlook in Hk. case_decide as Hdec; [by destruct Hdec|].
    by rewrite lookup_singleton_ne in Hk.
  - rewrite lookup_insert_eq in Hk. injection Hk as <-.
    unfold applicableSession, field in Hfound.
    assert (Hi : envelope !! "intent" = Some i).
    { rewrite Hlook, (prop_Get _ _ _ _ Hget). case_decide; [done|].
      by rewrite lookup_singleton_eq. }
    rewrite Hi in Hfound. rewrite (Hlook "pubkey") in Hfound.
    case_decide as Hdec.
    + destruct Hdec as [Hdecl Htruthy]. simpl in Hfound.
      rewrite Htruthy in Hfound. exists s. by split_and!.
    + rewrite lookup_singleton_ne in Hfound by done. discriminate.
Qed.

(** X7.  When the descriptor does not declare [pubkey], no session is
    looked up, whatever the caller supplied: the envelope is posted as
    prepared, on the extension transport if there is one and on the
    dialog transport otherwise, never on the iframe transport. *)
Theorem undeclared_pubkey_never_redeems_session params url (w : World Store)
    i d t (sent : JsObject) :
  Get (heap w) params "intent" = Some i →
  intentInterface !! ToString i = Some d →
  "pubkey" ∉ (Registry.params d).*1 →
  Posted t sent ∈ log (dispatch params url w).2 →
  Posted t sent ∉ log w →
  prepareRequestParams (heap w) d params = Resolved sent
  ∧ t = if extension w then ExtensionTransport else DialogTransport url.
Proof.
  intros Hget Hd Hundeclared Hin Hnew.
  apply dispatch_posted in Hin
    as [?|(i' & d' & envelope & (Hget' & _ & Hd' & _) & Hprep & Hsel)]; [done|].
  assert (i' = i) as -> by congruence.
  assert (d' = d) as -> by (apply readDescriptor_own in Hd; congruence).
  assert (Hnone : applicableSession w envelope = None).
  { unfold applicableSession, field.
    rewrite (prepareRequestParams_lookup _ _ _ _ Hprep "pubkey").
    rewrite decide_False by (by intros [? _]).
    by rewrite lookup_singleton_ne. }
  apply selected_envelope in Hsel as [(_ & -> & ->)|(s & Hsome & _)];
    [done|congruence].
Qed.

End DispatchComposition.

(** * Further properties of the entry points *)

Lemma own_alloc (h : Heap) (o : JsObject) l k :
  own (<[l := o]> h) l k = default VUndefined (o !! k).
Proof. unfold own. by rewrite lookup_insert_eq. Qed.

Lemma fresh_not_allocated (h : Heap) l o :
  h !! l = Some o → fresh (dom h) ≠ l.
Proof.
  intros Hl Heq. apply (is_fresh (dom h)). rewrite Heq.
  apply elem_of_dom. eauto.
Qed.

Section ApiProperties.

Context {Store : Type} `{SessionStorage Store}.
Variable intentInterface : gmap string IntentDescriptor.
Variable postMessage : Transport → JsObject → IntentResult + string.
Variable generatedToken : value.
Variable JSON_stringify : Heap → value → option value.

Local Abbreviation dispatch := (requestIntentConfirmation intentInterface postMessage).
Local Abbreviation send := (sendRequest postMessage).
Local Abbreviation request := (AlbedoIntent.request intentInterface postMessage).

(** X8.  With a truthy pubkey and no extension channel,
    [isImplicitSessionAllowed(intent, pubkey)] answers [true] exactly
    when a request for that intent and pubkey goes out on the iframe
    transport, without a dialog; asking does not change anything. *)
Theorem allowed_session_predicts_iframe (envelope : JsObject) url
    (w : World Store) i p :
  field envelope "intent" = i →
  field envelope "pubkey" = p →
  truthy p = true →
  extension w = false →
  ((AlbedoIntent.isImplicitSessionAllowed i p w).1 = true
   ↔ ∃ sent rest,
       log (send envelope url w).2
       = log w ++ Created (IframeTransport url)
                 :: Posted (IframeTransport url) sent :: rest)
  ∧ (AlbedoIntent.isImplicitSessionAllowed i p w).2 = w.
Proof.
  intros Hi Hp Htruthy Hext. split; [|done].
  unfold AlbedoIntent.isImplicitSessionAllowed. simpl.
  rewrite bool_decide_eq_true.
  destruct (send_log postMessage envelope url w)
    as (t & sent & rest & Hsel & Hlog & _).
  assert (Hfound : applicableSession w envelope
                   = getImplicitSession (sessions w) i p).
  { unfold applicableSession. by rewrite Hi, Hp, Htruthy. }
  apply selected_envelope in Hsel
    as [(Hnone & _ & Ht)|(s & Hsome & _ & Ht)]; rewrite Hext in Ht; subst t.
  - rewrite <- Hfound, Hnone. split; [by intros [? [=]]|].
    intros (sent' & rest' & Hlog'). rewrite Hlog in Hlog'.
    apply app_inv_head in Hlog'. discriminate.
  - rewrite <- Hfound, Hsome. split; [eauto|]. eauto.
Qed.

(** [request] writes [intent] on its target and on nothing else. *)
Lemma request_heap i params (w : World Store) l o :
  heap w !! l = Some o →
  params ≠ VObj l → (∀ src, params ≠ VFun l src) →
  heap (request i params w).2 !! l = Some o.
Proof.
  intros Hl Hobj Hfun.
  pose proof (fresh_not_allocated _ _ _ Hl) as Hfresh.
  unfold AlbedoIntent.request, AlbedoIntent.assignIntent, AlbedoIntent.ToObject,
    alloc.
  unfold AlbedoIntent.requestWith, AlbedoIntent.assignIntent,
    AlbedoIntent.ToObject, AlbedoIntent.invoke, alloc.
  destruct params as [| |b|n|s|l0|l0 src|l0]; simpl; [..|done];
    try destruct b; try destruct (negb (n =? 0));
    try destruct (negb (String.eqb s EmptyString)); simpl;
    rewrite dispatch_heap; simpl;
    rewrite Put_other; rewrite ?lookup_insert_ne; try done.
  - intros ->. by apply Hobj.
  - intros ->. by apply (Hfun src).
Qed.

(** X9.  [request] changes no object but [params]: every other object
    is after the call what it was before; when [params] is not an
    object (absent, or a primitive), no object at all is changed. *)
Theorem request_touches_only_params i params (w : World Store) l o :
  heap w !! l = Some o →
  params ≠ VObj l → (∀ src, params ≠ VFun l src) →
  heap (request i params w).2 !! l = Some o.
Proof. apply request_heap. Qed.

(** X11.  A call of [request] with a falsy [intent] argument reaches no
    transport and does not resolve, also when [params] held a registered
    intent: nothing is posted and the session store is not written. *)
Theorem request_falsy_intent_never_posts i params (w : World Store) :
  truthy i = false →
  log (request i params w).2 = log w
  ∧ sessions (request i params w).2 = sessions w
  ∧ ∀ r, (request i params w).1 ≠ Resolved r.
Proof.
  intros Hi.
  destruct (request_run intentInterface postMessage i params w)
    as [->|(target & h' & -> & Hget & _)]; [done|].
  unfold requestIntentConfirmation. simpl. by rewrite Hget, Hi.
Qed.

(** A posted envelope holds what the dispatcher read from [params]. *)
Lemma dispatch_posted_lookup params url (w : World Store) t (sent : JsObject)
    k v :
  Posted t sent ∈ log (dispatch params url w).2 →
  Posted t sent ∉ log w →
  sent !! k = Some v → k ≠ "session" →
  v = prop (heap w) params k ∧ (k ≠ "intent" → truthy v = true).
Proof.
  intros Hin Hnew Hk Hks.
  apply (dispatch_posted intentInterface postMessage) in Hin
    as [?|(i & d & envelope & _ & Hprep & Hsel)]; [done|].
  assert (Henv : envelope !! k = Some v).
  { apply selected_envelope in Hsel as [(_ & -> & _)|(s & _ & -> & _)];
      [done|]. by rewrite lookup_insert_ne in Hk. }
  rewrite (prepareRequestParams_lookup _ _ _ _ Hprep) in Henv.
  case_decide as Hdec.
  - destruct Hdec as [_ Htruthy]. injection Henv as <-. done.
  - destruct (decide (k = "intent")) as [->|Hne].
    + rewrite lookup_singleton_eq in Henv. by injection Henv as <-.
    + by rewrite lookup_singleton_ne in Henv.
Qed.

(** [request] on an object of the heap. *)
Lemma request_object i l (w : World Store) :
  request i (VObj l) w
  = dispatch (VObj l) AlbedoIntent.frontendUrl
      (AlbedoIntent.withHeap w (Put (heap w) l "intent" i)).
Proof. done. Qed.

(** [publicKey] dispatches a new object: the copy of [params], with
    its [token] or the generated one, and the intent. *)
Lemma publicKey_run params (w : World Store) :
  ∃ l h',
    heap w !! l = None
    ∧ AlbedoIntent.publicKey intentInterface postMessage generatedToken
        params w
      = dispatch (VObj l) AlbedoIntent.frontendUrl (AlbedoIntent.withHeap w h')
    ∧ (∀ l', l' ≠ l → h' !! l' = heap w !! l')
    ∧ own h' l "intent" = VStr "public_key"
    ∧ own h' l "token"
      = (if truthy (field (AlbedoIntent.enumerableProps (heap w) params) "token")
         then field (AlbedoIntent.enumerableProps (heap w) params) "token"
         else generatedToken)
    ∧ (∀ k, k ≠ "intent" → k ≠ "token" →
         own h' l k = field (AlbedoIntent.enumerableProps (heap w) params) k).
Proof.
  unfold AlbedoIntent.publicKey, alloc.
  set (l := fresh (dom (heap w))).
  set (props := AlbedoIntent.enumerableProps (heap w) params).
  set (h0 := <[l := props]> (heap w)).
  assert (Hfresh : heap w !! l = None)
    by apply not_elem_of_dom, is_fresh.
  assert (Hown0 : ∀ k, own h0 l k = field props k)
    by (intros k; apply own_alloc).
  rewrite request_object. simpl.
  eexists l, _. split_and!; [done|reflexivity|..].
  - intros l' Hne. rewrite Put_other by done.
    destruct (negb _); [rewrite Put_other by done|];
      unfold h0; by rewrite lookup_insert_ne.
  - apply own_Put_eq.
  - rewrite own_Put_ne by done. rewrite Hown0.
    destruct (truthy (field props "token")); simpl; [apply Hown0|].
    apply own_Put_eq.
  - intros k Hki Hkt. rewrite own_Put_ne by done.
    destruct (negb _); [rewrite own_Put_ne by done|]; apply Hown0.
Qed.

(** X12.  [publicKey] works on a copy of [params]: every object of the
    caller, [params] included, is after the call what it was before. *)
Theorem publicKey_leaves_caller_objects params (w : World Store) l o :
  heap w !! l = Some o →
  heap (AlbedoIntent.publicKey intentInterface postMessage generatedToken
          params w).2 !! l = Some o.
Proof.
  intros Hl.
  destruct (publicKey_run params w)
    as (l0 & h' & Hfresh & -> & Hother & _).
  rewrite dispatch_heap. simpl.
  rewrite Hother; [done|]. intros ->. congruence.
Qed.

(** X13.  Whatever [publicKey] posts has the intent ['public_key']; a
    [token] in it is truthy, and is the caller's when the caller gave a
    truthy one and the generated one otherwise; every other parameter
    in it is the caller's. *)
Theorem publicKey_posts_token params (w : World Store) t (sent : JsObject) :
  Posted t sent ∈
    log (AlbedoIntent.publicKey intentInterface postMessage generatedToken
           params w).2 →
  Posted t sent ∉ log w →
  sent !! "intent" = Some (VStr "public_key")
  ∧ (∀ v, sent !! "token" = Some v →
       truthy v = true
       ∧ v = if truthy (field (AlbedoIntent.enumerableProps (heap w) params)
                          "token")
             then field (AlbedoIntent.enumerableProps (heap w) params) "token"
             else generatedToken)
  ∧ (∀ k v, sent !! k = Some v →
       k ≠ "intent" → k ≠ "session" → k ≠ "token" →
       AlbedoIntent.enumerableProps (heap w) params !! k = Some v).
Proof.
  destruct (publicKey_run params w)
    as (l & h' & _ & -> & _ & Hintent & Htoken & Hrest).
  intros Hin Hnew. split_and!.
  - apply (dispatch_posts_intent _ _ _ _ _ (VStr "public_key")) in Hin
      as [?|?]; [done|done|]. simpl. by rewrite Hintent.
  - intros v Hv.
    destruct (dispatch_posted_lookup _ _ _ _ _ _ _ Hin Hnew Hv) as [-> Htruthy];
      [done|].
    split; [by apply Htruthy|]. unfold prop. simpl. by rewrite Htoken.
  - intros k v Hv Hki Hks Hkt.
    destruct (dispatch_posted_lookup _ _ _ _ _ _ _ Hin Hnew Hv) as [-> Htruthy];
      [done|].
    specialize (Htruthy Hki). unfold prop in *. simpl in *.
    rewrite Hrest in * by done. unfold field in *.
    by destruct (AlbedoIntent.enumerableProps (heap w) params !! k).
Qed.

(** [signMessage] dispatches a new object: the copy of [params] with
    the normalized message and the intent. *)
Lemma signMessage_run params (w : World Store) m normalized :
  Get (heap w) params "message" = Some m →
  AlbedoIntent.normalizeMessageToSign JSON_stringify (heap w) m
  = Some normalized →
  ∃ l h',
    heap w !! l = None
    ∧ AlbedoIntent.signMessage intentInterface postMessage JSON_stringify
        params w
      = dispatch (VObj l) AlbedoIntent.frontendUrl (AlbedoIntent.withHeap w h')
    ∧ (∀ l', l' ≠ l → h' !! l' = heap w !! l')
    ∧ own h' l "intent" = VStr "sign_message"
    ∧ own h' l "message" = normalized
    ∧ (∀ k, k ≠ "intent" → k ≠ "message" →
         own h' l k = field (AlbedoIntent.enumerableProps (heap w) params) k).
Proof.
  intros Hm Hnorm. unfold AlbedoIntent.signMessage, alloc. rewrite Hm, Hnorm.
  set (l := fresh (dom (heap w))).
  assert (Hfresh : heap w !! l = None)
    by apply not_elem_of_dom, is_fresh.
  rewrite request_object. simpl.
  eexists l, _. split_and!; [done|reflexivity|..].
  - intros l' Hne. rewrite Put_other by done. by rewrite lookup_insert_ne.
  - apply own_Put_eq.
  - rewrite own_Put_ne by done. rewrite own_alloc.
    by rewrite lookup_insert_eq.
  - intros k Hki Hkm. rewrite own_Put_ne by done. rewrite own_alloc.
    by rewrite lookup_insert_ne.
Qed.

(** Before it dispatches, [signMessage] throws and leaves the world as
    it is. *)
Lemma signMessage_thrown params (w : World Store) :
  Get (heap w) params "message" = None
  ∨ (∃ m, Get (heap w) params "message" = Some m
          ∧ AlbedoIntent.normalizeMessageToSign JSON_stringify (heap w) m
            = None) →
  AlbedoIntent.signMessage intentInterface postMessage JSON_stringify params w
  = (Thrown, w).
Proof.
  unfold AlbedoIntent.signMessage.
  intros [-> | (m & -> & ->)]; done.
Qed.

Lemma signMessage_cases params (w : World Store) :
  AlbedoIntent.signMessage intentInterface postMessage JSON_stringify params w
  = (Thrown, w)
  ∨ ∃ m normalized,
      Get (heap w) params "message" = Some m
      ∧ AlbedoIntent.normalizeMessageToSign JSON_stringify (heap w) m
        = Some normalized.
Proof.
  destruct (Get (heap w) params "message") as [m|] eqn:Hm;
    [|left; apply signMessage_thrown; by left].
  destruct (AlbedoIntent.normalizeMessageToSign JSON_stringify (heap w) m)
    as [normalized|] eqn:Hnorm; [right; eauto|].
  left. apply signMessage_thrown. right. eauto.
Qed.

(** X15.  [signMessage] works on a copy of [params]: every object of
    the caller, [params] included, is after the call what it was
    before. *)
Theorem signMessage_leaves_caller_objects params (w : World Store) l o :
  heap w !! l = Some o →
  heap (AlbedoIntent.signMessage intentInterface postMessage JSON_stringify
          params w).2 !! l = Some o.
Proof.
  intros Hl.
  destruct (signMessage_cases params w) as [->|(m & nm & Hm & Hnorm)]; [done|].
  destruct (signMessage_run params w m nm Hm Hnorm)
    as (l0 & h' & Hfresh & -> & Hother & _).
  rewrite dispatch_heap. simpl. rewrite Hother; [done|].
  intros ->. congruence.
Qed.

(** X16.  Whatever [signMessage] posts has the intent ['sign_message'];
    a [message] in it is the normalized [params.message] and is truthy:
    a string message goes out as it is, and an absent message never goes
    out as the empty string. *)
Theorem signMessage_posts_normalized_message params (w : World Store)
    t (sent : JsObject) :
  Posted t sent ∈
    log (AlbedoIntent.signMessage intentInterface postMessage JSON_stringify
           params w).2 →
  Posted t sent ∉ log w →
  sent !! "intent" = Some (VStr "sign_message")
  ∧ (∀ v, sent !! "message" = Some v →
       ∃ m, Get (heap w) params "message" = Some m
            ∧ AlbedoIntent.normalizeMessageToSign JSON_stringify (heap w) m
              = Some v
            ∧ truthy v = true
            ∧ m ≠ VUndefined
            ∧ (∀ s, m = VStr s → v = VStr s)).
Proof.
  intros Hin Hnew.
  destruct (signMessage_cases params w) as [Hthrown|(m & nm & Hm & Hnorm)];
    [by rewrite Hthrown in Hin|].
  destruct (signMessage_run params w m nm Hm Hnorm)
    as (l & h' & _ & Hrun & _ & Hintent & Hmessage & _).
  rewrite Hrun in Hin. split.
  - apply (dispatch_posts_intent _ _ _ _ _ (VStr "sign_message")) in Hin
      as [?|?]; [done|done|]. simpl. by rewrite Hintent.
  - intros v Hv. exists m.
    destruct (dispatch_posted_lookup _ _ _ _ _ _ _ Hin Hnew Hv) as [-> Htruthy];
      [done|].
    specialize (Htruthy ltac:(done)).
    unfold prop in *. simpl in *. rewrite Hmessage in *.
    split_and!; [done..| |].
    + intros ->. injection Hnorm as <-. by vm_compute in Htruthy.
    + intros s ->. by injection Hnorm as <-.
Qed.

(** X17.  When the descriptor of ['sign_message'] requires [message], a
    call of [signMessage] without a message, or with the empty string,
    reaches no transport and does not resolve: nothing is posted and the
    session store is not written. *)
Theorem signMessage_empty_message_never_posts params (w : World Store)
    d props m :
  intentInterface !! "sign_message" = Some d →
  ("message", props) ∈ Registry.params d →
  required props = true →
  Get (heap w) params "message" = Some m →
  m = VUndefined ∨ m = VStr EmptyString →
  log (AlbedoIntent.signMessage intentInterface postMessage JSON_stringify
         params w).2 = log w
  ∧ sessions (AlbedoIntent.signMessage intentInterface postMessage
                JSON_stringify params w).2 = sessions w
  ∧ ∀ r, (AlbedoIntent.signMessage intentInterface postMessage
            JSON_stringify params w).1 ≠ Resolved r.
Proof.
  intros Hd Hin Hreq Hm Hempty.
  assert (Hnorm : AlbedoIntent.normalizeMessageToSign JSON_stringify (heap w) m
                  = Some (VStr EmptyString))
    by (by destruct Hempty as [-> | ->]).
  destruct (signMessage_run params w m _ Hm Hnorm)
    as (l & h' & _ & -> & _ & Hintent & Hmessage & _).
  destruct (dispatch_cases intentInterface postMessage (VObj l)
              AlbedoIntent.frontendUrl (AlbedoIntent.withHeap w h'))
    as [(i' & d' & envelope & (Hget & _ & Hd' & _ & _ & Hall) & _)
       |[[_ [|]]|(e & -> & He & _)]]; try discriminate.
  - exfalso. simpl in Hget. rewrite Hintent in Hget. injection Hget as <-.
    simpl in Hd'.
    assert (d' = d) as -> by (apply readDescriptor_own in Hd; congruence).
    rewrite Forall_forall in Hall. specialize (Hall _ Hin Hreq).
    unfold prop in Hall. simpl in Hall. rewrite Hmessage in Hall.
    discriminate.
  - done.
Qed.

(** What [request] posts carries its [intent] argument. *)
Lemma request_posts_intent i params (w : World Store) t (sent : JsObject) :
  Posted t sent ∈ log (request i params w).2 →
  Posted t sent ∉ log w →
  sent !! "intent" = Some i.
Proof.
  intros Hin Hnew.
  by destruct (request_posts intentInterface postMessage _ _ _ _ _ Hin).
Qed.

(** X18.  Each of [implicitFlow], [tx], [pay], [trust], [exchange] and
    [manageAccount] posts envelopes of its own intent only, whatever
    [intent] the caller put in [params]. *)
Theorem named_entry_points_fix_intent params (w : World Store)
    t (sent : JsObject) :
  Posted t sent ∉ log w →
  (Posted t sent ∈
     log (AlbedoIntent.implicitFlow intentInterface postMessage params w).2 →
   sent !! "intent" = Some (VStr "implicit_flow"))
  ∧ (Posted t sent ∈
       log (AlbedoIntent.tx intentInterface postMessage params w).2 →
     sent !! "intent" = Some (VStr "tx"))
  ∧ (Posted t sent ∈
       log (AlbedoIntent.pay intentInterface postMessage params w).2 →
     sent !! "intent" = Some (VStr "pay"))
  ∧ (Posted t sent ∈
       log (AlbedoIntent.trust intentInterface postMessage params w).2 →
     sent !! "intent" = Some (VStr "trust"))
  ∧ (Posted t sent ∈
       log (AlbedoIntent.exchange intentInterface postMessage params w).2 →
     sent !! "intent" = Some (VStr "exchange"))
  ∧ (Posted t sent ∈
       log (AlbedoIntent.manageAccount intentInterface postMessage params w).2 →
     sent !! "intent" = Some (VStr "manage_account")).
Proof.
  intros Hnew. split_and!; intros Hin; by eapply request_posts_intent.
Qed.

End ApiProperties.

(** * The entry points at work *)

Lemma transport_failure_surfaced_witness :
  ∃ t sent,
    Sample.surface t sent = inr "rejected"
    ∧ log (requestIntentConfirmation Sample.registry Sample.surface Runs.caller
             Runs.url
             (Sample.world false ApiRuns.payFullCall Sample.noSessions)).2
      = [Created t; Posted t sent].
Proof.
  assert (Hrun :
    requestIntentConfirmation Sample.registry Sample.surface Runs.caller
      Runs.url (Sample.world false ApiRuns.payFullCall Sample.noSessions)
    = (Rejected (TransportFailure "rejected"),
       (requestIntentConfirmation Sample.registry Sample.surface Runs.caller
          Runs.url
          (Sample.world false ApiRuns.payFullCall Sample.noSessions)).2))
    by (vm_compute; reflexivity).
  destruct (transport_failure_surfaced _ _ _ _ _ _ _ Hrun)
    as (t & sent & Hpost & Hlog & _).
  exists t, sent. split; [exact Hpost | exact Hlog].
Defined.

Lemma dispatch_posts_iff_acceptable_witness :
  ∃ t sent rest,
    log (requestIntentConfirmation Sample.registry Sample.surface Runs.caller
           Runs.url
           (Sample.world false ApiRuns.payFullCall Sample.noSessions)).2
    = Created t :: Posted t sent :: rest.
Proof.
  apply (proj1 (dispatch_posts_iff_acceptable Sample.registry Sample.surface
                  Runs.caller Runs.url
                  (Sample.world false ApiRuns.payFullCall Sample.noSessions))).
  exists (VStr "pay"),
    {| params := [("destination", Sample.mandatory);
                  ("amount", Sample.mandatory);
                  ("asset_code", Sample.optional); ("memo", Sample.optional);
                  ("pubkey", Sample.optional); ("network", Sample.optional);
                  ("submit", Sample.optional)] |}.
  unfold acceptable. split_and!; try (vm_compute; reflexivity).
  - left. vm_compute; reflexivity.
  - repeat (constructor;
              [ intros Hreq; vm_compute in Hreq |- *;
                first [discriminate Hreq | reflexivity] | ]).
    constructor.
Defined.


Lemma posted_pubkey_well_shaped_witness :
  VStr Sample.account
  = prop (heap (Sample.world false Runs.txCall Sample.oneSession))
      Runs.caller "pubkey"
  ∧ ∃ rest, ToString (VStr Sample.account) = String "G" rest
            ∧ String.length rest = 55%nat
            ∧ Forall (fun c => is_digit_or_upper c = true)
                     (list_ascii_of_string rest).
Proof.
  refine (posted_pubkey_well_shaped Sample.registry Sample.surface
            Runs.caller Runs.url
            (Sample.world false Runs.txCall Sample.oneSession)
            (IframeTransport Runs.url)
            (<["session" := VStr "token-1"]> Runs.txEnvelope)
            (VStr Sample.account) _ _ _).
  - vm_compute. right; left.
  - by intros ?%elem_of_nil.
  - vm_compute; reflexivity.
Defined.

Lemma posted_session_comes_from_store_witness :
  ∃ s,
    MemoryStore.get Sample.oneSession (VStr "tx")
      (prop (heap (Sample.world false Runs.txCall Sample.oneSession))
         Runs.caller "pubkey") = Some s
    ∧ VStr "token-1" = VStr (key s).
Proof.
  destruct (posted_session_comes_from_store Sample.registry Sample.surface
              Runs.caller Runs.url
              (Sample.world false Runs.txCall Sample.oneSession)
              (VStr "tx")
              {| params := [("xdr", Sample.mandatory);
                            ("pubkey", Sample.optional);
                            ("network", Sample.optional);
                            ("submit", Sample.optional)] |}
              (IframeTransport Runs.url)
              (<["session" := VStr "token-1"]> Runs.txEnvelope)
              (VStr "token-1"))
    as (s & Hget & Hkey & _);
    try (vm_compute; reflexivity).
  - vm_compute. intros Hin.
    repeat (apply elem_of_cons in Hin as [Heq|Hin]; [discriminate|]).
    by apply elem_of_nil in Hin.
  - vm_compute. right; left.
  - by intros ?%elem_of_nil.
  - exists s. split; [exact Hget | exact Hkey].
Defined.

Lemma undeclared_pubkey_never_redeems_session_witness :
  prepareRequestParams
    (heap (Sample.world false
             (<["pubkey" := VStr Sample.account]> Runs.flowCall)
             ApiRuns.flowSession))
    {| params := [("intents", Sample.mandatory)] |} Runs.caller
  = Resolved Runs.flowCall
  ∧ DialogTransport Runs.url = DialogTransport Runs.url.
Proof.
  refine (undeclared_pubkey_never_redeems_session Sample.registry
            Sample.surface Runs.caller Runs.url
            (Sample.world false
               (<["pubkey" := VStr Sample.account]> Runs.flowCall)
               ApiRuns.flowSession)
            (VStr "implicit_flow")
            {| params := [("intents", Sample.mandatory)] |}
            (DialogTransport Runs.url) Runs.flowCall _ _ _ _ _);
    try (vm_compute; reflexivity).
  - vm_compute. intros Hin.
    repeat (apply elem_of_cons in Hin as [Heq|Hin]; [discriminate|]).
    by apply elem_of_nil in Hin.
  - vm_compute. right; left.
  - by intros ?%elem_of_nil.
Defined.

Lemma allowed_session_predicts_iframe_witness :
  ∃ sent rest,
    log (sendRequest Sample.surface Runs.txEnvelope Runs.url
           (Sample.world false Runs.txCall Sample.oneSession)).2
    = Created (IframeTransport Runs.url)
      :: Posted (IframeTransport Runs.url) sent :: rest.
Proof.
  destruct (allowed_session_predicts_iframe Sample.surface Runs.txEnvelope
              Runs.url (Sample.world false Runs.txCall Sample.oneSession)
              (VStr "tx") (VStr Sample.account))
    as [Hiff _]; try (vm_compute; reflexivity).
  apply Hiff. vm_compute; reflexivity.
Defined.

Lemma request_touches_only_params_witness :
  heap (AlbedoIntent.request Sample.registry Sample.surface (VStr "tx")
          Runs.caller (ApiRuns.twoObjects Runs.txCall Runs.payCall)).2
    !! 2%positive = Some Runs.payCall.
Proof.
  apply (request_touches_only_params Sample.registry Sample.surface);
    [vm_compute; reflexivity | discriminate | discriminate].
Defined.

Lemma request_falsy_intent_never_posts_witness :
  log (AlbedoIntent.request Sample.registry Sample.surface VUndefined
         Runs.caller (Sample.world false Runs.txCall Sample.noSessions)).2
  = []
  ∧ own (heap (Sample.world false Runs.txCall Sample.noSessions))
      1%positive "intent" = VStr "tx".
Proof.
  split; [|vm_compute; reflexivity].
  apply (request_falsy_intent_never_posts Sample.registry Sample.surface).
  reflexivity.
Defined.

Lemma publicKey_leaves_caller_objects_witness :
  heap (AlbedoIntent.publicKey ApiRuns.registry Sample.surface
          ApiRuns.generated Runs.caller
          (Sample.world false ApiRuns.tokenlessCall Sample.noSessions)).2
    !! 1%positive = Some ApiRuns.tokenlessCall.
Proof.
  apply (publicKey_leaves_caller_objects ApiRuns.registry Sample.surface
           ApiRuns.generated).
  vm_compute; reflexivity.
Defined.

Lemma publicKey_posts_token_witness :
  ApiRuns.tokenEnvelope !! "intent" = Some (VStr "public_key")
  ∧ truthy ApiRuns.generated = true.
Proof.
  destruct (publicKey_posts_token ApiRuns.registry Sample.surface
              ApiRuns.generated Runs.caller
              (Sample.world false ApiRuns.tokenlessCall Sample.noSessions)
              (DialogTransport Runs.url) ApiRuns.tokenEnvelope)
    as (Hintent & Htoken & _).
  - vm_compute. right; left.
  - by intros ?%elem_of_nil.
  - split; [exact Hintent|].
    apply (Htoken ApiRuns.generated). vm_compute; reflexivity.
Defined.

Lemma signMessage_leaves_caller_objects_witness :
  heap (AlbedoIntent.signMessage ApiRuns.registry Sample.surface
          ApiRuns.jsonOfPrimitive Runs.caller
          (Sample.world false ApiRuns.signCall Sample.noSessions)).2
    !! 1%positive = Some ApiRuns.signCall.
Proof.
  apply (signMessage_leaves_caller_objects ApiRuns.registry Sample.surface
           ApiRuns.jsonOfPrimitive).
  vm_compute; reflexivity.
Defined.

Lemma signMessage_posts_normalized_message_witness :
  ApiRuns.signEnvelope !! "intent" = Some (VStr "sign_message")
  ∧ ∃ m, Get (heap (Sample.world false ApiRuns.signCall Sample.noSessions))
           Runs.caller "message" = Some m
         ∧ AlbedoIntent.normalizeMessageToSign ApiRuns.jsonOfPrimitive
             (heap (Sample.world false ApiRuns.signCall Sample.noSessions)) m
           = Some (VStr "hello").
Proof.
  destruct (signMessage_posts_normalized_message ApiRuns.registry
              Sample.surface ApiRuns.jsonOfPrimitive Runs.caller
              (Sample.world false ApiRuns.signCall Sample.noSessions)
              (DialogTransport Runs.url) ApiRuns.signEnvelope)
    as (Hintent & Hmessage).
  - vm_compute. right; left.
  - by intros ?%elem_of_nil.
  - split; [exact Hintent|].
    destruct (Hmessage (VStr "hello")) as (m & Hget & Hnorm & _);
      [vm_compute; reflexivity|].
    exists m. split; [exact Hget | exact Hnorm].
Defined.

Lemma signMessage_empty_message_never_posts_witness :
  log (AlbedoIntent.signMessage ApiRuns.registry Sample.surface
         ApiRuns.jsonOfPrimitive Runs.caller
         (Sample.world false ApiRuns.noMessageCall Sample.oneSession)).2
  = [].
Proof.
  destruct (signMessage_empty_message_never_posts ApiRuns.registry
              Sample.surface ApiRuns.jsonOfPrimitive Runs.caller
              (Sample.world false ApiRuns.noMessageCall Sample.oneSession)
              {| params := [("message", Sample.mandatory);
                            ("pubkey", Sample.optional)] |}
              Sample.mandatory VUndefined)
    as (Hlog & _).
  - vm_compute; reflexivity.
  - left.
  - reflexivity.
  - vm_compute; reflexivity.
  - by left.
  - exact Hlog.
Defined.

Lemma named_entry_points_fix_intent_witness :
  <["session" := VStr "token-1"]> Runs.txEnvelope !! "intent"
  = Some (VStr "tx").
Proof.
  destruct (named_entry_points_fix_intent Sample.registry Sample.surface
              Runs.caller
              (Sample.world false
                 (<["intent" := VStr "pay"]> Runs.txCall) Sample.oneSession)
              (IframeTransport Runs.url)
              (<["session" := VStr "token-1"]> Runs.txEnvelope))
    as (_ & Htx & _).
  - by intros ?%elem_of_nil.
  - apply Htx. vm_compute. right; left.
Defined.
